(** * Gaia light curves: a shallow embedding of [gaia_functions.py]

    The module [light_curves/code/gaia_functions.py] queries the Gaia archive
    for a list of sky coordinates, keeps the nearest catalogue row of every
    coordinate, downloads the epoch photometry of the matched sources and
    reshapes everything into one long-format table.

    Modelling conventions.
    - A Python [float] / numpy [float64] is a primitive binary64 [float];
      [<], [==], [*], [/], [+], [-] are the IEEE operations of [PrimFloat].
      [numpy.power] and [numpy.log] are library routines and enter through
      the class [NumPy].
    - An astropy [Table] is the list of its rows, each row a record holding
      the columns the code reads.  [vstack] appends rows.
    - A Python [dict] with string keys is a [gmap string _].
    - A raised exception is [Raise e] in the type [result]; functions that
      talk to the archive or to matplotlib live in [IO], which also records
      the external calls in the order they are made.
    - [print] under [verbose] and the [tqdm] progress bar have no effect on
      any value and are left out; [verbose] stays a parameter. *)

From Stdlib Require Import ZArith List Floats String Ascii Lia Bool.
From stdpp Require Import gmap strings list fin_maps pretty sorting.

Set Warnings "-inexact-float".

(** ** Python values, exceptions and the two monads *)

Inductive PyExc : Type :=
| IndexError
| KeyError
| ValueError
| UnboundLocalError
| ExternalError (what : string).

Inductive result (A : Type) : Type :=
| Ok (a : A)
| Raise (e : PyExc).
Arguments Ok {A} a.
Arguments Raise {A} e.

Definition result_bind {A B} (f : A → result B) (m : result A) : result B :=
  match m with
  | Ok a => f a
  | Raise e => Raise e
  end.

#[global] Instance result_mret : MRet result := λ A a, Ok a.
#[global] Instance result_mbind : MBind result := λ A B f m, result_bind f m.

(** [for x in xs: acc = body(acc, x)] where [body] may raise. *)
Fixpoint for_each {A S} (body : S → A → result S) (xs : list A) (acc : S)
  : result S :=
  match xs with
  | [] => Ok acc
  | x :: xs' =>
      match body acc x with
      | Ok acc' => for_each body xs' acc'
      | Raise e => Raise e
      end
  end.

(** Python list indexing [l[i]], negative indices counting from the end. *)
Definition py_index {A} (l : list A) (i : Z) : result A :=
  let n := Z.of_nat (length l) in
  let j := if (i <? 0)%Z then (n + i)%Z else i in
  if (j <? 0)%Z then Raise IndexError
  else match l !! Z.to_nat j with
       | Some a => Ok a
       | None => Raise IndexError
       end.

(** Python slice [l[0:n]]. *)
Definition py_slice_to {A} (l : list A) (n : Z) : list A :=
  let len := Z.of_nat (length l) in
  let stop := if (n <? 0)%Z then Z.max 0 (len + n) else n in
  take (Z.to_nat stop) l.

(** [str.lower] on ASCII text. *)
Definition lower_ascii (c : ascii) : ascii :=
  let n := nat_of_ascii c in
  if (65 <=? n)%nat && (n <=? 90)%nat then ascii_of_nat (n + 32) else c.

Fixpoint lower (s : string) : string :=
  match s with
  | EmptyString => EmptyString
  | String c s' => String (lower_ascii c) (lower s')
  end.

(** [str(n)] of an integer. *)
Definition str (n : Z) : string := pretty n.

(** [np.where(mask)[0]] for a mask computed row by row: the positions, in
    increasing order, at which the mask is true. *)
Fixpoint np_where_from {A} (i : nat) (mask : A → bool) (l : list A) : list nat :=
  match l with
  | [] => []
  | x :: l' =>
      if mask x then i :: np_where_from (S i) mask l'
      else np_where_from (S i) mask l'
  end.

Definition np_where {A} (mask : A → bool) (l : list A) : list nat :=
  np_where_from 0 mask l.

(** [table[sel]] for a list of row positions. *)
Definition take_rows {A} (tab : list A) (sel : list nat) : list A :=
  omap (λ i, tab !! i) sel.

(** ** Floating point *)

(** [np.fmin]: the smaller of two numbers, a NaN giving way to the other. *)
Definition fmin (a b : float) : float :=
  if is_nan a then b
  else if is_nan b then a
  else if PrimFloat.ltb b a then b else a.

(** [np.nanmin] of a non-empty array [d :: ds]. *)
Definition nanmin (d : float) (ds : list float) : float :=
  fold_left fmin ds d.

Class NumPy : Type := {
  np_power : float → float → float;
  np_log : float → float
}.

(** The astropy [Time] conversions the code goes through. *)
Class AstropyTime : Type := {
  (** [Time(jd, format="jd").isot] *)
  jd_to_isot : float → string;
  (** [Time(s, format="isot").mjd] *)
  isot_to_mjd : string → float;
  (** [Time(mjd, format="mjd").mjd] *)
  mjd_to_mjd : float → float
}.

(** ** Data model *)

(** A sky position ([astropy.coordinates.SkyCoord]), in degrees. *)
Record SkyCoord : Type := { ra : float; dec : float }.

(** A row of the table a cone search returns: the columns of
    [gaiaedr3.gaia_source] the code reads, and the distance [dist] to the
    searched position. *)
Module Cat.
Record row : Type := {
  source_id : Z;
  dist : float;
  phot_bp_mean_mag : float;
  phot_g_mean_mag : float;
  phot_rp_mean_mag : float;
  phot_bp_mean_flux : float;
  phot_g_mean_flux : float;
  phot_rp_mean_flux : float;
  phot_bp_mean_flux_error : float;
  phot_g_mean_flux_error : float;
  phot_rp_mean_flux_error : float;
  phot_g_n_obs : Z;
  phot_rp_n_obs : Z;
  phot_bp_n_obs : Z
}.

(** [tab["dist"] = new] for one row. *)
Definition set_dist (new : float) (r : row) : row :=
  {| source_id := source_id r; dist := new;
     phot_bp_mean_mag := phot_bp_mean_mag r;
     phot_g_mean_mag := phot_g_mean_mag r;
     phot_rp_mean_mag := phot_rp_mean_mag r;
     phot_bp_mean_flux := phot_bp_mean_flux r;
     phot_g_mean_flux := phot_g_mean_flux r;
     phot_rp_mean_flux := phot_rp_mean_flux r;
     phot_bp_mean_flux_error := phot_bp_mean_flux_error r;
     phot_g_mean_flux_error := phot_g_mean_flux_error r;
     phot_rp_mean_flux_error := phot_rp_mean_flux_error r;
     phot_g_n_obs := phot_g_n_obs r;
     phot_rp_n_obs := phot_rp_n_obs r;
     phot_bp_n_obs := phot_bp_n_obs r |}.
End Cat.

(** A row of [gaia_table]: a catalogue row together with the column
    [input_object_name] the code adds before it selects rows. *)
Module Matched.
Record row : Type := {
  input_object_name : Z;
  cat : Cat.row
}.
End Matched.

(** A row of [gaia_phot], the table of mean photometry. *)
Module Phot.
Record row : Type := {
  phot_bp_mean_mag : float;
  phot_g_mean_mag : float;
  phot_rp_mean_mag : float;
  phot_bp_mean_mag_error : float;
  phot_g_mean_mag_error : float;
  phot_rp_mean_mag_error : float;
  input_object_name : Z;
  source_id : Z;
  phot_g_n_obs : Z;
  phot_rp_n_obs : Z;
  phot_bp_n_obs : Z
}.
End Phot.

(** A row of an [EPOCH_PHOTOMETRY] product of the DataLink service. *)
Module Epoch.
Record row : Type := {
  time : float;
  band : string;
  mag : float;
  flux : float;
  flux_error : float;
  rejected_by_photometry : bool
}.
End Epoch.

(** A row of a per-band light curve made by [Gaia_mk_lightcurves]. *)
Module LC.
Record row : Type := {
  time_jd : float;
  time_isot : string;
  mag : float;
  magerr : float
}.
End LC.

(** A row of the final long-format table: the four index levels and the two
    data columns. *)
Module DF.
Record row : Type := {
  objectid : Z;
  label : string;
  band : string;
  time : float;
  flux : float;
  err : float
}.
End DF.

(** A pandas [DataFrame] of such rows, with the names of its index levels
    and of its data columns. *)
Record DataFrame : Type := {
  df_index_names : list string;
  df_columns : list string;
  df_rows : list DF.row
}.

(** ** The outside world *)

(** The archive: [Gaia.cone_search_async(...).get_data()] under the table
    selected by [Gaia.MAIN_GAIA_TABLE], and [Gaia.load_data], whose answer
    maps a product file name to the list of its tables. *)
Class GaiaArchive : Type := {
  cone_search_async : string → SkyCoord → float → list Cat.row;
  load_data : list Z → gmap string (list (list Epoch.row))
}.

(** matplotlib: whether a call of [errorbar] raises. *)
Class Matplotlib : Type := {
  errorbar : nat → list float → list float → list float → string → option PyExc
}.

(** The container class of [data_structures.py] (not part of this module):
    an object that holds a data frame in [.data] and can [append] one. *)
Class MultiIndexDFObjectAPI : Type := {
  MultiIndexDFObject : Type;
  midf_new : MultiIndexDFObject;
  midf_append : MultiIndexDFObject → DataFrame → MultiIndexDFObject;
  midf_data : MultiIndexDFObject → DataFrame
}.

Inductive Event : Type :=
| EvConeSearch (table : string) (coordinate : SkyCoord) (radius : float)
| EvLoadData (ids : list Z)
| EvFigure
| EvErrorbar (axis : nat) (lab : string)
| EvDecorate (axis : nat)
| EvShow.

Definition IO (A : Type) : Type := list Event → result A * list Event.

Definition io_ret {A} (a : A) : IO A := λ tr, (Ok a, tr).

Definition io_bind {A B} (m : IO A) (f : A → IO B) : IO B :=
  λ tr, match m tr with
        | (Ok a, tr') => f a tr'
        | (Raise e, tr') => (Raise e, tr')
        end.

Definition io_emit (e : Event) : IO unit := λ tr, (Ok tt, tr ++ [e]).

Definition io_raise {A} (e : PyExc) : IO A := λ tr, (Raise e, tr).

Definition io_lift {A} (r : result A) : IO A := λ tr, (r, tr).

(** [try: body except: pass] with a bare [except]. *)
Definition io_try_pass (body : IO unit) : IO unit :=
  λ tr, match body tr with
        | (Ok _, tr') => (Ok tt, tr')
        | (Raise _, tr') => (Ok tt, tr')
        end.

#[global] Instance io_mret : MRet IO := λ A a, io_ret a.
#[global] Instance io_mbind : MBind IO := λ A B f m, io_bind m f.

(** [for x in xs: acc = body(acc, x)] for a body that acts on the world. *)
Fixpoint io_for {A S} (body : S → A → IO S) (xs : list A) (acc : S) : IO S :=
  match xs with
  | [] => io_ret acc
  | x :: xs' => acc' ← body acc x; io_for body xs' acc'
  end.

(** ** The functions of [gaia_functions.py] *)

Section Gaia.
Context {numpy : NumPy} {astropy : AstropyTime} {archive : GaiaArchive}
  {matplotlib : Matplotlib} {container : MultiIndexDFObjectAPI}.

(** [np.nanmin(a)]; numpy raises [ValueError] on an empty array. *)
Definition np_nanmin (a : list float) : result float :=
  match a with
  | [] => Raise ValueError
  | d :: ds => Ok (nanmin d ds)
  end.

(** [Quantity.to(u.arcsec)] of a value in degrees. *)
Definition deg_to_arcsec (d : float) : float := (d * 3600)%float.

(** The mask [(dist < 1*u.arcsec) & (dist == dmin)]. *)
Definition nearest_mask (dmin : float) (r : Cat.row) : bool :=
  PrimFloat.ltb (Cat.dist r) 1 && PrimFloat.eqb (Cat.dist r) dmin.

(** The body of the loop of [Gaia_retrieve_median_photometry] after the
    search: [data] is the answer with [dist] already in arcseconds; the
    result is [gaia_search.get_data()[sel_min]]. *)
Definition select_nearest (objectid : Z) (data : list Cat.row)
  : result (list Matched.row) :=
  if (0 <? length data)%nat then
    let named := map (Matched.Build_row objectid) data in
    dmin ← np_nanmin (map Cat.dist data);
    let sel_min := np_where (nearest_mask dmin) data in
    mret (take_rows named sel_min)
  else
    mret (take_rows (map (Matched.Build_row objectid) data) []).

Definition cone_search (table : string) (coord : SkyCoord) (radius : float)
  : IO (list Cat.row) :=
  _ ← io_emit (EvConeSearch table coord radius);
  mret (cone_search_async table coord radius).

(** One turn of the loop over [coords_list]. *)
Definition retrieve_turn (gaia_source_table : string) (search_radius : float)
    (gaia_table : list Matched.row) (item : Z * SkyCoord)
  : IO (list Matched.row) :=
  let '(objectid, coord) := item in
  gaia_search ← cone_search gaia_source_table coord search_radius;
  let data :=
    map (λ r, Cat.set_dist (deg_to_arcsec (Cat.dist r)) r) gaia_search in
  picked ← io_lift (select_nearest objectid data);
  mret (gaia_table ++ picked).

Definition Gaia_retrieve_median_photometry
    (coords_list : list (Z * SkyCoord)) (labels_list : list string)
    (gaia_source_table : string) (search_radius : float) (verbose : Z)
  : IO (list Matched.row) :=
  io_for (retrieve_turn gaia_source_table search_radius) coords_list [].

(** [2.5/np.log(10) * flux_error/flux] *)
Definition mag_error (flux_error flux : float) : float :=
  (2.5 / np_log 10 * flux_error / flux)%float.

Definition Gaia_extract_median_photometry (gaia_table : list Matched.row)
  : list Phot.row :=
  map (λ r,
         let c := Matched.cat r in
         {| Phot.phot_bp_mean_mag := Cat.phot_bp_mean_mag c;
            Phot.phot_g_mean_mag := Cat.phot_g_mean_mag c;
            Phot.phot_rp_mean_mag := Cat.phot_rp_mean_mag c;
            Phot.phot_bp_mean_mag_error :=
              mag_error (Cat.phot_bp_mean_flux_error c) (Cat.phot_bp_mean_flux c);
            Phot.phot_g_mean_mag_error :=
              mag_error (Cat.phot_g_mean_flux_error c) (Cat.phot_g_mean_flux c);
            Phot.phot_rp_mean_mag_error :=
              mag_error (Cat.phot_rp_mean_flux_error c) (Cat.phot_rp_mean_flux c);
            Phot.input_object_name := Matched.input_object_name r;
            Phot.source_id := Cat.source_id c;
            Phot.phot_g_n_obs := Cat.phot_g_n_obs c;
            Phot.phot_rp_n_obs := Cat.phot_rp_n_obs c;
            Phot.phot_bp_n_obs := Cat.phot_bp_n_obs c |})
      gaia_table.

Definition Gaia_retrieve_EPOCH_PHOTOMETRY (ids : list Z) (verbose : Z)
  : IO (gmap string (list Epoch.row)) :=
  _ ← io_emit (EvLoadData ids);
  let datalink := load_data ids in
  io_lift
    (for_each (λ prod_tab dd,
                 let this_dl_key :=
                   "EPOCH_PHOTOMETRY-Gaia DR3 " +:+ str dd +:+ ".xml" in
                 match datalink !! this_dl_key with
                 | Some tables =>
                     t ← py_index tables 0;
                     mret (<[str dd := t]> prod_tab)
                 | None => mret prod_tab
                 end)
              ids ∅).

Definition bands : list string := ["G"; "BP"; "RP"].

(** The mask [(band == b) & (rejected_by_photometry == False)]. *)
Definition band_mask (b : string) (r : Epoch.row) : bool :=
  String.eqb (Epoch.band r) b && Bool.eqb (Epoch.rejected_by_photometry r) false.

(** The table stored in [output[key][band]]. *)
Definition band_table (tab : list Epoch.row) (band : string) : list LC.row :=
  let sel_band := np_where (band_mask band) tab in
  map (λ r,
         let time_jd := (Epoch.time r + 2455197.5)%float in
         {| LC.time_jd := time_jd;
            LC.time_isot := jd_to_isot time_jd;
            LC.mag := Epoch.mag r;
            LC.magerr := mag_error (Epoch.flux_error r) (Epoch.flux r) |})
      (take_rows tab sel_band).

(** The dictionary stored in [output[key]]: a table for each band. *)
Definition band_tables (tab : list Epoch.row) : gmap string (list LC.row) :=
  foldl (λ d band, <[band := band_table tab band]> d) ∅ bands.

Definition Gaia_mk_lightcurves (prod_tab : gmap string (list Epoch.row))
    (verbose : Z) : gmap string (gmap string (list LC.row)) :=
  foldl (λ output '(key, tab), <[key := band_tables tab]> output)
        ∅ (map_to_list prod_tab).

(** *** The long-format table *)

(** A value given to [pd.DataFrame(dict(...))]: an array, or a scalar that
    pandas repeats along the rows. *)
Inductive column (A : Type) : Type :=
| Scalar (a : A)
| Array (l : list A).
#[global] Arguments Scalar {A} a.
#[global] Arguments Array {A} l.

Definition broadcast {A} (n : nat) (c : column A) : result (list A) :=
  match c with
  | Scalar a => Ok (replicate n a)
  | Array l => if (length l =? n)%nat then Ok l else Raise ValueError
  end.

Fixpoint zip_rows (objectid : list Z) (label band : list string)
    (time flux err : list float) : list DF.row :=
  match objectid, label, band, time, flux, err with
  | o :: os, l :: ls, b :: bs, t :: ts, f :: fs, e :: es =>
      {| DF.objectid := o; DF.label := l; DF.band := b;
         DF.time := t; DF.flux := f; DF.err := e |}
      :: zip_rows os ls bs ts fs es
  | _, _, _, _, _, _ => []
  end.

(** [pd.DataFrame(dict(flux=.., err=.., time=.., objectid=.., label=..,
    band=..))]: six columns in the order of the keys, no index level yet.
    Arrays of different lengths raise [ValueError]. *)
Definition pd_DataFrame (flux err : column float) (time : column float)
    (objectid : column Z) (label band : column string) : result DataFrame :=
  let n := match flux with Array l => length l | Scalar _ => 1%nat end in
  fl ← broadcast n flux;
  er ← broadcast n err;
  ti ← broadcast n time;
  ob ← broadcast n objectid;
  la ← broadcast n label;
  ba ← broadcast n band;
  mret {| df_index_names := [];
          df_columns := ["flux"; "err"; "time"; "objectid"; "label"; "band"];
          df_rows := zip_rows ob la ba ti fl er |}.

(** [df.set_index(keys)]: the named columns become the index levels. *)
Definition set_index (keys : list string) (df : DataFrame) : result DataFrame :=
  if forallb (λ k, bool_decide (k ∈ df_columns df)) keys then
    Ok {| df_index_names := keys;
          df_columns := filter (λ c, c ∉ keys) (df_columns df);
          df_rows := df_rows df |}
  else Raise KeyError.

(** [pd.concat([a, b])]: the rows of [a], then the rows of [b]; the columns
    are those of [a] followed by the columns only [b] has. *)
Definition pd_concat (a b : DataFrame) : DataFrame :=
  {| df_index_names := df_index_names a;
     df_columns := df_columns a ++ filter (λ c, c ∉ df_columns a) (df_columns b);
     df_rows := df_rows a ++ df_rows b |}.

(** [10**(-0.4*(y - 23.9))/1e3] *)
Definition mag_to_flux (y : float) : float :=
  (np_power 10 (-0.4 * (y - 23.9)) / 1e3)%float.

(** [dy / 2.5 * np.log(10) * y2] *)
Definition magerr_to_fluxerr (dy y2 : float) : float :=
  (dy / 2.5 * np_log 10 * y2)%float.

(** The [try: this_df_lc / except NameError / else] block: [None] is the
    local name [this_df_lc] not being bound yet. *)
Definition add_to_table (this_df_lc : option DataFrame) (dfsingle : DataFrame)
  : option DataFrame :=
  match this_df_lc with
  | None => Some dfsingle
  | Some df => Some (pd_concat df dfsingle)
  end.

(** [dfsingle] of the branch with epoch photometry. *)
Definition epoch_frame (objectid : Z) (lab band : string) (tab : list LC.row)
  : result DataFrame :=
  let d := map LC.time_isot tab in
  let t := map isot_to_mjd d in
  let y := map LC.mag tab in
  let dy := map LC.magerr tab in
  let y2 := map mag_to_flux y in
  let dy2 := zip_with magerr_to_fluxerr dy y2 in
  df ← pd_DataFrame (Array y2) (Array dy2) (Array t)
        (Array (replicate (length y) objectid)) (Scalar lab)
        (Scalar ("Gaia " +:+ lower band));
  set_index ["objectid"; "label"; "band"; "time"] df.

(** [gaia_phot[name]] for the two computed column names. *)
Definition phot_column (name : string) : result (Phot.row → float) :=
  if String.eqb name "phot_g_mean_mag" then Ok Phot.phot_g_mean_mag
  else if String.eqb name "phot_bp_mean_mag" then Ok Phot.phot_bp_mean_mag
  else if String.eqb name "phot_rp_mean_mag" then Ok Phot.phot_rp_mean_mag
  else if String.eqb name "phot_g_mean_mag_error" then Ok Phot.phot_g_mean_mag_error
  else if String.eqb name "phot_bp_mean_mag_error" then Ok Phot.phot_bp_mean_mag_error
  else if String.eqb name "phot_rp_mean_mag_error" then Ok Phot.phot_rp_mean_mag_error
  else Raise KeyError.

Definition fixed_epoch : string := "2015-09-24T19:40:33.468".

(** [dfsingle] of the branch without epoch photometry. *)
Definition mean_frame (objectid : Z) (lab band : string)
    (gaia_phot : list Phot.row) (sel : list nat) : result DataFrame :=
  let t := isot_to_mjd fixed_epoch in
  ycol ← phot_column ("phot_" +:+ lower band +:+ "_mean_mag");
  let y := map ycol (take_rows gaia_phot sel) in
  dycol ← phot_column ("phot_" +:+ lower band +:+ "_mean_mag_error");
  let dy := map dycol (take_rows gaia_phot sel) in
  let y2 := map mag_to_flux y in
  let dy2 := zip_with magerr_to_fluxerr dy y2 in
  df ← pd_DataFrame (Array y2) (Array dy2) (Scalar t)
        (Array (replicate (length y) objectid)) (Scalar lab)
        (Scalar ("Gaia " +:+ lower band));
  set_index ["objectid"; "label"; "band"; "time"] df.

(** [d[k]] on a dict. *)
Definition dict_get {V} (d : gmap string V) (k : string) : result V :=
  match d !! k with
  | Some v => Ok v
  | None => Raise KeyError
  end.

(** One turn of the loop over [coords_list] in [Gaia_mk_MultiIndex]. *)
Definition mk_MultiIndex_object (labels_list : list string)
    (gaia_phot : list Phot.row)
    (gaia_epoch_phot : gmap string (gmap string (list LC.row)))
    (this_df_lc : option DataFrame) (objectid : Z)
  : result (option DataFrame) :=
  let sel := np_where (λ r, Z.eqb objectid (Phot.input_object_name r)) gaia_phot in
  lab ← py_index labels_list objectid;
  if (0 <? length sel)%nat then
    sel0 ← py_index sel 0;
    source_id ← py_index (map Phot.source_id gaia_phot) (Z.of_nat sel0);
    match gaia_epoch_phot !! str source_id with
    | Some light_curves =>
        for_each (λ this_df_lc band,
                    tab ← dict_get light_curves band;
                    dfsingle ← epoch_frame objectid lab band tab;
                    mret (add_to_table this_df_lc dfsingle))
                 ["G"; "BP"; "RP"] this_df_lc
    | None =>
        for_each (λ this_df_lc band,
                    dfsingle ← mean_frame objectid lab band gaia_phot sel;
                    mret (add_to_table this_df_lc dfsingle))
                 ["G"; "BP"; "RP"] this_df_lc
    end
  else mret this_df_lc.

Definition Gaia_mk_MultiIndex (coords_list : list (Z * SkyCoord))
    (labels_list : list string) (gaia_phot : list Phot.row)
    (gaia_epoch_phot : gmap string (gmap string (list LC.row)))
    (verbose : Z) : result DataFrame :=
  this_df_lc ← for_each (λ this_df_lc '(objectid, _),
                           mk_MultiIndex_object labels_list gaia_phot
                             gaia_epoch_phot this_df_lc objectid)
                        coords_list None;
  match this_df_lc with
  | Some df => Ok df
  | None => Raise UnboundLocalError
  end.

(** *** The main function *)

Definition Gaia_get_lightcurve (coords_list : list (Z * SkyCoord))
    (labels_list : list string) (verbose : Z) : IO MultiIndexDFObject :=
  gaia_table ← Gaia_retrieve_median_photometry coords_list labels_list
                  "gaiaedr3.gaia_source" 20 verbose;
  let gaia_phot := Gaia_extract_median_photometry gaia_table in
  prod_tab ← Gaia_retrieve_EPOCH_PHOTOMETRY (map Phot.source_id gaia_phot) verbose;
  let gaia_epoch_phot := Gaia_mk_lightcurves prod_tab verbose in
  df_lc_gaia ← io_lift (Gaia_mk_MultiIndex coords_list labels_list gaia_phot
                          gaia_epoch_phot verbose);
  let df_lc := midf_new in
  let df_lc := midf_append df_lc df_lc_gaia in
  mret df_lc.

(** *** Plotting *)

(** [list(df.index.levels[0])]: the object ids of the table, sorted, each
    once. *)
Definition index_level0 (df : DataFrame) : list Z :=
  merge_sort Z.le (remove_dups (map DF.objectid (df_rows df))).

(** [df.loc[dd, :, band, :]]: the rows of that object and band; pandas
    raises [KeyError] when there is none. *)
Definition df_loc (df : DataFrame) (dd : Z) (band : string) : result (list DF.row) :=
  match filter (λ r, DF.objectid r = dd ∧ DF.band r = band) (df_rows df) with
  | [] => Raise KeyError
  | rows => Ok rows
  end.

Definition plot_errorbar (axis : nat) (x y yerr : list float) (lab : string)
  : IO unit :=
  match errorbar axis x y yerr lab with
  | Some e => io_raise e
  | None => io_emit (EvErrorbar axis lab)
  end.

(** The body of [try:] for one object: the loop over the three bands. *)
Definition plot_object (df : DataFrame) (dd : Z) : IO unit :=
  io_for (λ _ '(bb, band),
            this_tab ← io_lift (df_loc df dd ("Gaia " +:+ lower band));
            let t := map mjd_to_mjd (map DF.time this_tab) in
            plot_errorbar bb t (map DF.flux this_tab) (map DF.err this_tab)
                          (str dd))
         (imap (λ bb band, (bb, band)) ["G"; "BP"; "RP"]) tt.

Definition Gaia_plot_lightcurves (df_lc : MultiIndexDFObject) (nbr_objects : Z)
  : IO bool :=
  let object_ids := index_level0 (midf_data df_lc) in
  _ ← io_emit EvFigure;
  _ ← io_for (λ _ dd, io_try_pass (plot_object (midf_data df_lc) dd))
             (py_slice_to object_ids nbr_objects) tt;
  _ ← io_for (λ _ ii, io_emit (EvDecorate ii)) (seq 0 3) tt;
  _ ← io_emit EvShow;
  mret true.

End Gaia.

(** ** Vocabulary of the statements below *)

Section Vocabulary.
Context {numpy : NumPy} {astropy : AstropyTime} {archive : GaiaArchive}.

(** [sel] of [Gaia_mk_MultiIndex]: the rows of [gaia_phot] whose
    [input_object_name] is [objectid]. *)
Definition matches (gaia_phot : list Phot.row) (objectid : Z) : list nat :=
  np_where (λ r, Z.eqb objectid (Phot.input_object_name r)) gaia_phot.

(** Every [labels_list[objectid]] of the loop succeeds. *)
Definition labels_ok (labels_list : list string)
    (coords_list : list (Z * SkyCoord)) : bool :=
  forallb (λ '(objectid, _),
             match py_index labels_list objectid with
             | Ok _ => true
             | Raise _ => false
             end)
          coords_list.

(** Every entry of [gaia_epoch_phot] has a table for each of the three
    bands, as the dictionaries made by [Gaia_mk_lightcurves] do. *)
Definition epoch_ok (gaia_epoch_phot : gmap string (gmap string (list LC.row)))
  : Prop :=
  map_Forall (λ _ light_curves,
                Forall (λ band, is_Some (light_curves !! band : option (list LC.row)))
                       bands)
             gaia_epoch_phot.

(** The object is matched to a source that has no epoch photometry: the
    loop takes the [else] branch for it. *)
Definition uses_mean_photometry (gaia_phot : list Phot.row)
    (gaia_epoch_phot : gmap string (gmap string (list LC.row)))
    (objectid : Z) : Prop :=
  ∃ i p, head (matches gaia_phot objectid) = Some i
         ∧ gaia_phot !! i = Some p
         ∧ gaia_epoch_phot !! str (Phot.source_id p) = None.

(** The answer of one cone search, with [dist] in arcseconds. *)
Definition search_in_arcsec (table : string) (coord : SkyCoord)
    (radius : float) : list Cat.row :=
  map (λ r, Cat.set_dist (deg_to_arcsec (Cat.dist r)) r)
      (cone_search_async table coord radius).

(** No two rows of a table are at the same distance. *)
Definition no_ties (data : list Cat.row) : Prop :=
  ∀ i j a b, i ≠ j → data !! i = Some a → data !! j = Some b →
             PrimFloat.eqb (Cat.dist a) (Cat.dist b) = false.

(** The rows of a search answer the code keeps: those below one arcsecond
    whose distance equals [np.nanmin] of all distances. *)
Definition nearest_rows (data : list Cat.row) : list Cat.row :=
  match map Cat.dist data with
  | [] => []
  | d :: ds => List.filter (nearest_mask (nanmin d ds)) data
  end.

(** What [rows] must satisfy to be the rows kept for [objectid] out of the
    answer [data]: they are exactly the rows of [data] under one arcsecond
    at the minimal distance, tagged with [objectid]; no row of [data] is
    closer than any of them; they are all at the same distance; and there
    is at most one of them unless two rows of [data] tie. *)
Definition kept_for (objectid : Z) (data : list Cat.row)
    (rows : list Matched.row) : Prop :=
  (∀ r, r ∈ rows ↔
        Matched.input_object_name r = objectid
        ∧ Matched.cat r ∈ data
        ∧ PrimFloat.ltb (Cat.dist (Matched.cat r)) 1 = true
        ∧ ∃ d ds, map Cat.dist data = d :: ds
                  ∧ PrimFloat.eqb (Cat.dist (Matched.cat r)) (nanmin d ds) = true)
  ∧ (∀ r c, r ∈ rows → c ∈ data →
            PrimFloat.ltb (Cat.dist c) (Cat.dist (Matched.cat r)) = false)
  ∧ (∀ r r', r ∈ rows → r' ∈ rows →
             PrimFloat.eqb (Cat.dist (Matched.cat r)) (Cat.dist (Matched.cat r')) = true)
  ∧ (no_ties data → length rows ≤ 1).

(** The table of matched rows, search by search. *)
Definition matched_table (table : string) (radius : float)
    (coords_list : list (Z * SkyCoord)) : list Matched.row :=
  flat_map (λ '(objectid, coord),
              map (Matched.Build_row objectid)
                  (nearest_rows (search_in_arcsec table coord radius)))
           coords_list.

(** The cone searches of a run, one for each coordinate, in order. *)
Definition cone_searches (table : string) (radius : float)
    (coords_list : list (Z * SkyCoord)) : list Event :=
  map (λ '(_, coord), EvConeSearch table coord radius) coords_list.

(** The row the code makes out of one magnitude [mag] with error [magerr]
    observed at time [t] (in MJD) in [band]. *)
Definition flux_row (objectid : Z) (lab band : string) (t mag magerr : float)
  : DF.row :=
  {| DF.objectid := objectid; DF.label := lab;
     DF.band := "Gaia " +:+ lower band; DF.time := t;
     DF.flux := mag_to_flux mag;
     DF.err := magerr_to_fluxerr magerr (mag_to_flux mag) |}.

(** The table with the four index levels, the two data columns and the
    given rows. *)
Definition table_of (rows : list DF.row) : DataFrame :=
  {| df_index_names := ["objectid"; "label"; "band"; "time"];
     df_columns := ["flux"; "err"];
     df_rows := rows |}.

(** The rows gathered so far in [this_df_lc]. *)
Definition rows_of (this_df_lc : option DataFrame) : list DF.row :=
  match this_df_lc with
  | Some df => df_rows df
  | None => []
  end.

(** [this_df_lc] is unbound or holds a table with the four index levels
    and the two data columns. *)
Definition well_shaped (this_df_lc : option DataFrame) : Prop :=
  match this_df_lc with
  | Some df => df = table_of (df_rows df)
  | None => True
  end.

(** The mean magnitude of a band and its error. *)
Definition mean_photometry (band : string) (p : Phot.row) : float * float :=
  if String.eqb band "G" then
    (Phot.phot_g_mean_mag p, Phot.phot_g_mean_mag_error p)
  else if String.eqb band "BP" then
    (Phot.phot_bp_mean_mag p, Phot.phot_bp_mean_mag_error p)
  else (Phot.phot_rp_mean_mag p, Phot.phot_rp_mean_mag_error p).

(** The row of band [band] made from the mean photometry [p]. *)
Definition mean_row (objectid : Z) (lab band : string) (p : Phot.row) : DF.row :=
  flux_row objectid lab band (isot_to_mjd fixed_epoch)
           (fst (mean_photometry band p)) (snd (mean_photometry band p)).

(** The row made from the light-curve entry [e]. *)
Definition epoch_row (objectid : Z) (lab band : string) (e : LC.row) : DF.row :=
  flux_row objectid lab band (isot_to_mjd (LC.time_isot e)) (LC.mag e)
           (LC.magerr e).

(** The rows one turn of the loop of [Gaia_mk_MultiIndex] adds for
    [objectid]: none without a match; otherwise, band after band, the rows
    of the light curves of the first matched source, or the rows of the
    mean photometry of all matched rows when that source has no light
    curves. *)
Definition object_rows (labels_list : list string) (gaia_phot : list Phot.row)
    (gaia_epoch_phot : gmap string (gmap string (list LC.row)))
    (objectid : Z) : list DF.row :=
  match py_index labels_list objectid, head (matches gaia_phot objectid) with
  | Ok lab, Some i =>
      match gaia_phot !! i with
      | Some p =>
          match gaia_epoch_phot !! str (Phot.source_id p) with
          | Some light_curves =>
              flat_map (λ band, map (epoch_row objectid lab band)
                                    (default [] (light_curves !! band)))
                       bands
          | None =>
              flat_map (λ band,
                          map (mean_row objectid lab band)
                              (take_rows gaia_phot (matches gaia_phot objectid)))
                       bands
          end
      | None => []
      end
  | _, _ => []
  end.

(** Where a row added for [objectid] comes from. *)
Definition row_from (labels_list : list string) (gaia_phot : list Phot.row)
    (gaia_epoch_phot : gmap string (gmap string (list LC.row)))
    (objectid : Z) (row : DF.row) : Prop :=
  ∃ lab i p band,
    py_index labels_list objectid = Ok lab
    ∧ head (matches gaia_phot objectid) = Some i
    ∧ gaia_phot !! i = Some p
    ∧ band ∈ bands
    ∧ ((∃ light_curves tab e,
          gaia_epoch_phot !! str (Phot.source_id p) = Some light_curves
          ∧ light_curves !! band = Some tab
          ∧ e ∈ tab
          ∧ row = epoch_row objectid lab band e)
       ∨ (∃ p',
            gaia_epoch_phot !! str (Phot.source_id p) = None
            ∧ p' ∈ take_rows gaia_phot (matches gaia_phot objectid)
            ∧ row = mean_row objectid lab band p')).

(** Some input coordinate has a match in [gaia_phot]. *)
Definition some_match (gaia_phot : list Phot.row)
    (coords_list : list (Z * SkyCoord)) : bool :=
  existsb (λ '(objectid, _), (0 <? length (matches gaia_phot objectid))%nat)
          coords_list.

(** The name of the epoch-photometry file of source [dd] in the answer of
    the DataLink service. *)
Definition product_file (dd : Z) : string :=
  "EPOCH_PHOTOMETRY-Gaia DR3 " +:+ str dd +:+ ".xml".

(** The light-curve entry made of one epoch row. *)
Definition lc_entry (r : Epoch.row) : LC.row :=
  {| LC.time_jd := (Epoch.time r + 2455197.5)%float;
     LC.time_isot := jd_to_isot (Epoch.time r + 2455197.5)%float;
     LC.mag := Epoch.mag r;
     LC.magerr := (2.5 / np_log 10 * Epoch.flux_error r / Epoch.flux r)%float |}.

(** The values the band level of the index takes. *)
Definition band_names : list string := ["Gaia g"; "Gaia bp"; "Gaia rp"].

(** Some row of a search answer is less than one arcsecond away. *)
Definition has_close_source (data : list Cat.row) : bool :=
  existsb (λ r, PrimFloat.ltb (Cat.dist r) 1) data.

(** A computation that only adds calls to the record of external calls,
    and whose outcome does not depend on the calls made before it. *)
Definition appends {A} (m : IO A) : Prop :=
  ∀ tr, m tr = (fst (m []), tr ++ snd (m [])).


End Vocabulary.

(** ** A small world to run the functions in

    The instances below stand in for numpy, astropy, the archive and
    matplotlib when a function is evaluated on an example.  Every general
    statement further down is proved for all instances. *)

Module Demo.

#[local] Open Scope float_scope.

Definition numpy : NumPy :=
  {| np_power := λ b x, b * x; np_log := λ x, x / 4 |}.

Definition astropy : AstropyTime :=
  {| jd_to_isot := λ jd, if PrimFloat.ltb jd 2457000 then "2014-12-07T00:00:00.000"
                         else "2015-03-01T12:00:00.000";
     isot_to_mjd := λ s, if String.eqb s "2014-12-07T00:00:00.000" then 56998
                         else if String.eqb s "2015-03-01T12:00:00.000" then 57082.5
                         else 57289.819831805558;
     mjd_to_mjd := λ t, t |}.

Definition cat_row (id : Z) (dist_deg g_mag : float) : Cat.row :=
  {| Cat.source_id := id; Cat.dist := dist_deg;
     Cat.phot_bp_mean_mag := g_mag + 0.5; Cat.phot_g_mean_mag := g_mag;
     Cat.phot_rp_mean_mag := g_mag - 0.5;
     Cat.phot_bp_mean_flux := 2000; Cat.phot_g_mean_flux := 4000;
     Cat.phot_rp_mean_flux := 3000;
     Cat.phot_bp_mean_flux_error := 20; Cat.phot_g_mean_flux_error := 10;
     Cat.phot_rp_mean_flux_error := 30;
     Cat.phot_g_n_obs := 200; Cat.phot_rp_n_obs := 20; Cat.phot_bp_n_obs := 21 |}.

Definition product_row (t : float) (b : string) (m : float) (rej : bool) : Epoch.row :=
  {| Epoch.time := t; Epoch.band := b; Epoch.mag := m; Epoch.flux := 4000;
     Epoch.flux_error := 40; Epoch.rejected_by_photometry := rej |}.

Definition product_101 : list Epoch.row :=
  [ product_row 1800 "G" 15 false; product_row 1801 "G" 15.5 true;
    product_row 1890 "BP" 16 false; product_row 1890 "RP" 14 false ].

(** Position 10 has one source 0.36 arcsec away and one 7.2 arcsec away;
    position 30 has two sources at the same 0.36 arcsec; position 50 has
    one source 0.72 arcsec away, without epoch photometry; any other
    position has none. *)
Definition archive : GaiaArchive :=
  {| cone_search_async := λ table coord radius,
       if PrimFloat.eqb (ra coord) 10 then
         [cat_row 101 0.0001 15; cat_row 102 0.002 17]
       else if PrimFloat.eqb (ra coord) 30 then
         [cat_row 301 0.0001 16; cat_row 302 0.0001 18]
       else if PrimFloat.eqb (ra coord) 50 then
         [cat_row 501 0.0002 19]
       else [];
     load_data := λ ids,
       if bool_decide (101%Z ∈ ids)
       then {[ "EPOCH_PHOTOMETRY-Gaia DR3 101.xml" := [product_101] ]}
       else ∅ |}.

(** [errorbar] fails on the second axis only. *)
Definition matplotlib : Matplotlib :=
  {| errorbar := λ axis x y yerr lab,
       if (axis =? 1)%nat then Some (ExternalError "errorbar") else None |}.

Definition container : MultiIndexDFObjectAPI :=
  {| MultiIndexDFObject := list DataFrame;
     midf_new := [];
     midf_append := λ o df, o ++ [df];
     midf_data := λ o, match o with
                       | df :: _ => df
                       | [] => {| df_index_names := []; df_columns := []; df_rows := [] |}
                       end |}.

Definition c10 : SkyCoord := {| ra := 10; dec := -5 |}.
Definition c30 : SkyCoord := {| ra := 30; dec := 12 |}.
Definition c50 : SkyCoord := {| ra := 50; dec := 0 |}.
Definition c70 : SkyCoord := {| ra := 70; dec := 45 |}.

Definition coords_list : list (Z * SkyCoord) := [(0%Z, c10); (1%Z, c70); (2%Z, c50)].
Definition labels_list : list string := ["AGN"; "star"; "QSO"].

Definition gaia_table : list Matched.row :=
  match Gaia_retrieve_median_photometry (archive := archive) coords_list labels_list
          "gaiaedr3.gaia_source" 20 0 [] with
  | (Ok t, _) => t
  | _ => []
  end.

Definition gaia_phot : list Phot.row :=
  Gaia_extract_median_photometry (numpy := numpy) gaia_table.

(** The row of [gaia_phot] for the source at position 50. *)
Definition phot_501 : Phot.row :=
  {| Phot.phot_bp_mean_mag := 19.5; Phot.phot_g_mean_mag := 19;
     Phot.phot_rp_mean_mag := 18.5;
     Phot.phot_bp_mean_mag_error := 20 / 2000;
     Phot.phot_g_mean_mag_error := 10 / 4000;
     Phot.phot_rp_mean_mag_error := 30 / 3000;
     Phot.input_object_name := 2; Phot.source_id := 501;
     Phot.phot_g_n_obs := 200; Phot.phot_rp_n_obs := 20;
     Phot.phot_bp_n_obs := 21 |}.

Definition prod_tab : gmap string (list Epoch.row) :=
  match Gaia_retrieve_EPOCH_PHOTOMETRY (archive := archive)
          (map Phot.source_id gaia_phot) 0 [] with
  | (Ok t, _) => t
  | _ => ∅
  end.

Definition gaia_epoch_phot : gmap string (gmap string (list LC.row)) :=
  Gaia_mk_lightcurves (numpy := numpy) (astropy := astropy) prod_tab 0.

End Demo.

(** Two more situations in the same world: an object with two sources at
    the same distance, and a source all of whose epochs were rejected. *)
Module DemoEdge.

#[local] Open Scope float_scope.

Definition coords_list : list (Z * SkyCoord) := [(0%Z, Demo.c30)].
Definition labels_list : list string := ["twin"].

Definition gaia_phot : list Phot.row :=
  Gaia_extract_median_photometry (numpy := Demo.numpy)
    (matched_table (archive := Demo.archive) "gaiaedr3.gaia_source" 20
       coords_list).



(** The row of [Demo.gaia_phot] for the source at position 10. *)
Definition phot_101 : Phot.row :=
  {| Phot.phot_bp_mean_mag := 15.5; Phot.phot_g_mean_mag := 15;
     Phot.phot_rp_mean_mag := 14.5;
     Phot.phot_bp_mean_mag_error := 20 / 2000;
     Phot.phot_g_mean_mag_error := 10 / 4000;
     Phot.phot_rp_mean_mag_error := 30 / 3000;
     Phot.input_object_name := 0; Phot.source_id := 101;
     Phot.phot_g_n_obs := 200; Phot.phot_rp_n_obs := 20;
     Phot.phot_bp_n_obs := 21 |}.

Definition prod_tab_rejected : gmap string (list Epoch.row) :=
  {[ "101" := Demo.product_101;
     "501" := [Demo.product_row 1800 "G" 19 true] ]}.

Definition gaia_epoch_phot_rejected : gmap string (gmap string (list LC.row)) :=
  Gaia_mk_lightcurves (numpy := Demo.numpy) (astropy := Demo.astropy)
    prod_tab_rejected 0.

(** The same archive, except that the file of source 101 comes without
    any table in it. *)
Definition archive_without_table : GaiaArchive :=
  {| cone_search_async := cone_search_async (GaiaArchive := Demo.archive);
     load_data := λ ids, {[ "EPOCH_PHOTOMETRY-Gaia DR3 101.xml" := [] ]} |}.

End DemoEdge.

(** * Properties *)

(** ** Comparisons of binary64 numbers *)

Ltac sf_cases :=
  repeat match goal with
         | |- context [Z.compare ?a ?b] => destruct (Z.compare_spec a b)
         | H : context [Z.compare ?a ?b] |- _ => destruct (Z.compare_spec a b)
         | |- context [Pos.compare ?a ?b] => destruct (Pos.compare_spec a b)
         | H : context [Pos.compare ?a ?b] |- _ => destruct (Pos.compare_spec a b)
         end;
  simpl in *; subst; try discriminate; try reflexivity; try lia.

Lemma SFltb_trans x y z :
  SFltb x y = true → SFltb y z = true → SFltb x z = true.
Proof.
  unfold SFltb, SFcompare.
  destruct x as [[]|[]| |[] mx ex], y as [[]|[]| |[] my ey],
           z as [[]|[]| |[] mz ez];
    try discriminate; try reflexivity;
    rewrite ?Pos.compare_cont_spec; simpl; intros Hxy Hyz; sf_cases.
Qed.

Lemma SFltb_irrefl x : SFltb x x = false.
Proof.
  unfold SFltb, SFcompare.
  destruct x as [[]|[]| |[] mx ex]; try reflexivity;
    rewrite ?Pos.compare_cont_spec, Z.compare_refl; simpl;
    rewrite Pos.compare_refl; reflexivity.
Qed.

Lemma SFltb_eqb_r x y m :
  SFltb y x = true → SFeqb x m = true → SFltb y m = true.
Proof.
  unfold SFltb, SFeqb, SFcompare.
  destruct x as [[]|[]| |[] mx ex], y as [[]|[]| |[] my ey],
           m as [[]|[]| |[] mm em];
    try discriminate; try reflexivity;
    rewrite ?Pos.compare_cont_spec; simpl; intros Hyx Hxm; sf_cases.
Qed.

Lemma SFeqb_join a b m :
  SFeqb a m = true → SFeqb b m = true → SFeqb a b = true.
Proof.
  unfold SFeqb, SFcompare.
  destruct a as [[]|[]| |[] ma ea], b as [[]|[]| |[] mb eb],
           m as [[]|[]| |[] mm em];
    try discriminate; try reflexivity;
    rewrite ?Pos.compare_cont_spec; simpl; intros Ha Hb; sf_cases.
Qed.

Lemma SFeqb_nan_l x y : SFeqb x x = false → SFltb x y = false.
Proof.
  unfold SFeqb, SFltb, SFcompare.
  destruct x as [[]|[]| |[] mx ex]; try discriminate; try reflexivity;
    rewrite ?Pos.compare_cont_spec, Z.compare_refl; simpl;
    rewrite Pos.compare_refl; discriminate.
Qed.

Lemma ltb_trans (x y z : float) :
  PrimFloat.ltb x y = true → PrimFloat.ltb y z = true → PrimFloat.ltb x z = true.
Proof. rewrite !ltb_spec. apply SFltb_trans. Qed.

Lemma ltb_irrefl (x : float) : PrimFloat.ltb x x = false.
Proof. rewrite ltb_spec. apply SFltb_irrefl. Qed.

Lemma ltb_eqb_r (x y m : float) :
  PrimFloat.ltb y x = true → PrimFloat.eqb x m = true → PrimFloat.ltb y m = true.
Proof. rewrite !ltb_spec, FloatAxioms.eqb_spec. apply SFltb_eqb_r. Qed.

Lemma eqb_join (a b m : float) :
  PrimFloat.eqb a m = true → PrimFloat.eqb b m = true → PrimFloat.eqb a b = true.
Proof. rewrite !FloatAxioms.eqb_spec. apply SFeqb_join. Qed.

Lemma ltb_nan_l (x y : float) : is_nan x = true → PrimFloat.ltb x y = false.
Proof.
  unfold is_nan. rewrite negb_true_iff, ltb_spec, FloatAxioms.eqb_spec.
  apply SFeqb_nan_l.
Qed.

(** [np.fmin] never answers a number above one of its arguments, and
    answers NaN only for two NaNs. *)
Lemma fmin_lower_bound (m b : float) (seen : list float) :
  (is_nan m = true → Forall (λ x, is_nan x = true) seen) →
  Forall (λ x, PrimFloat.ltb x m = false) seen →
  (is_nan (fmin m b) = true → Forall (λ x, is_nan x = true) (b :: seen))
  ∧ Forall (λ x, PrimFloat.ltb x (fmin m b) = false) (b :: seen).
Proof.
  intros Hnan Hlb. unfold fmin.
  destruct (is_nan m) eqn:Hm.
  - specialize (Hnan eq_refl). split.
    + intros Hb. by constructor.
    + constructor; [apply ltb_irrefl|].
      eapply Forall_impl; [exact Hnan|]. intros x Hx. by apply ltb_nan_l.
  - destruct (is_nan b) eqn:Hb.
    + split; [congruence|]. constructor; [by apply ltb_nan_l | done].
    + destruct (PrimFloat.ltb b m) eqn:Hbm.
      * split; [congruence|]. constructor; [apply ltb_irrefl|].
        eapply Forall_impl; [exact Hlb|]. intros x Hx. simpl in Hx.
        destruct (PrimFloat.ltb x b) eqn:Hxb; [|done].
        rewrite (ltb_trans x b m Hxb Hbm) in Hx. done.
      * split; [congruence|]. by constructor.
Qed.

Lemma fold_fmin_lower_bound (ds seen : list float) (m : float) :
  (is_nan m = true → Forall (λ x, is_nan x = true) seen) →
  Forall (λ x, PrimFloat.ltb x m = false) seen →
  Forall (λ x, PrimFloat.ltb x (fold_left fmin ds m) = false) (ds ++ seen).
Proof.
  revert seen m. induction ds as [|b ds IH]; intros seen m Hnan Hlb; [done|].
  simpl. destruct (fmin_lower_bound m b seen Hnan Hlb) as [Hnan' Hlb'].
  specialize (IH (b :: seen) (fmin m b) Hnan' Hlb').
  rewrite Forall_forall in IH. rewrite Forall_forall. intros x Hx.
  apply IH. rewrite elem_of_app, elem_of_cons.
  rewrite elem_of_cons, elem_of_app in Hx. tauto.
Qed.

(** No element of the array is below [np.nanmin] of it. *)
Lemma nanmin_lower_bound (d : float) (ds : list float) (x : float) :
  x ∈ d :: ds → PrimFloat.ltb x (nanmin d ds) = false.
Proof.
  intros Hx. unfold nanmin.
  assert (Forall (λ x, PrimFloat.ltb x (fold_left fmin ds d) = false) (ds ++ [d]))
    as Hall.
  { apply fold_fmin_lower_bound.
    - intros Hd. by repeat constructor.
    - constructor; [apply ltb_irrefl | constructor]. }
  rewrite Forall_forall in Hall. apply Hall.
  rewrite elem_of_app, list_elem_of_singleton.
  rewrite elem_of_cons in Hx. tauto.
Qed.

(** ** Row selection *)

Lemma take_rows_np_where_from {A} (mask : A → bool) (pre l : list A) :
  take_rows (pre ++ l) (np_where_from (length pre) mask l) = List.filter mask l.
Proof.
  revert pre. induction l as [|x l IH]; intros pre; [done|].
  assert (take_rows (pre ++ x :: l) (np_where_from (S (length pre)) mask l)
          = List.filter mask l) as Hrest.
  { specialize (IH (pre ++ [x])). rewrite <- app_assoc, length_app in IH.
    simpl in IH. by rewrite Nat.add_1_r in IH. }
  simpl. destruct (mask x); [|done].
  unfold take_rows in *. simpl.
  rewrite lookup_app_r, Nat.sub_diag by lia. simpl. by f_equal.
Qed.

(** [table[np.where(mask)[0]]] keeps the rows where the mask holds. *)
Lemma take_rows_np_where {A} (mask : A → bool) (l : list A) :
  take_rows l (np_where mask l) = List.filter mask l.
Proof. apply (take_rows_np_where_from mask [] l). Qed.

Lemma take_rows_map {A B} (f : A → B) (tab : list A) (sel : list nat) :
  take_rows (map f tab) sel = map f (take_rows tab sel).
Proof.
  unfold take_rows. induction sel as [|i sel IH]; [done|].
  cbn [omap list_omap]. rewrite IH.
  change (map f tab) with (f <$> tab). rewrite list_lookup_fmap.
  by destruct (tab !! i).
Qed.


Lemma filter_at_most_one {A} (p : A → bool) (l : list A) :
  (∀ i j a b, i ≠ j → l !! i = Some a → l !! j = Some b →
              p a = true → p b = true → False) →
  length (List.filter p l) ≤ 1.
Proof.
  induction l as [|x l IH]; intros Hpair; [simpl; lia|].
  assert (length (List.filter p l) ≤ 1) as Hl.
  { apply IH. intros i j a b Hij Hi Hj. apply (Hpair (S i) (S j)); auto. }
  simpl. destruct (p x) eqn:Hx; [|done].
  destruct (List.filter p l) as [|y ys] eqn:Hf; [simpl; lia|].
  assert (In y (List.filter p l)) as Hy by (rewrite Hf; left; done).
  apply filter_In in Hy as [Hin Hpy].
  apply list_elem_of_In, list_elem_of_lookup in Hin as [j Hj].
  exfalso. by apply (Hpair 0 (S j) x y).
Qed.

(** ** [Gaia_retrieve_median_photometry] *)

Section Retrieve.
Context {archive : GaiaArchive}.

Lemma select_nearest_spec (objectid : Z) (data : list Cat.row) :
  select_nearest objectid data
  = Ok (map (Matched.Build_row objectid) (nearest_rows data)).
Proof.
  unfold select_nearest, nearest_rows.
  destruct data as [|c data']; [done|].
  simpl length. simpl Nat.ltb. cbv iota.
  change (map Cat.dist (c :: data')) with (Cat.dist c :: map Cat.dist data').
  simpl np_nanmin. cbn [mbind result_mbind result_bind mret result_mret].
  by rewrite take_rows_map, take_rows_np_where.
Qed.

Lemma nearest_rows_kept (objectid : Z) (data : list Cat.row) :
  kept_for objectid data (map (Matched.Build_row objectid) (nearest_rows data)).
Proof.
  unfold kept_for, nearest_rows.
  destruct (map Cat.dist data) as [|d ds] eqn:Hd.
  { simpl. split; [|split; [|split]].
    - intros r. split; [intros Hr; by apply elem_of_nil in Hr|].
      intros (_ & _ & _ & d & ds & Hdd & _). discriminate.
    - intros r c Hr. by apply elem_of_nil in Hr.
    - intros r r' Hr. by apply elem_of_nil in Hr.
    - intros; lia. }
  assert (∀ r, r ∈ map (Matched.Build_row objectid)
                       (List.filter (nearest_mask (nanmin d ds)) data) ↔
               Matched.input_object_name r = objectid ∧ Matched.cat r ∈ data
               ∧ PrimFloat.ltb (Cat.dist (Matched.cat r)) 1 = true
               ∧ PrimFloat.eqb (Cat.dist (Matched.cat r)) (nanmin d ds) = true) as Hmem.
  { intros r. rewrite list_elem_of_fmap. split.
    - intros (c & -> & Hc). apply list_elem_of_In, filter_In in Hc as [Hc Hm].
      unfold nearest_mask in Hm. apply andb_true_iff in Hm as [? ?].
      simpl. by rewrite list_elem_of_In.
    - intros (Ho & Hc & Hlt & Heq). exists (Matched.cat r). split.
      + destruct r; simpl in *; by subst.
      + apply list_elem_of_In, filter_In. rewrite <- list_elem_of_In.
        split; [done|]. unfold nearest_mask. by rewrite Hlt, Heq. }
  split; [|split; [|split]].
  - intros r. rewrite Hmem. split.
    + intros (?&?&?&?). repeat split; try done. by exists d, ds.
    + intros (?&?&?& d' & ds' & Hdd & ?). repeat split; try done.
      by simplify_eq.
  - intros r c Hr Hc. apply Hmem in Hr as (_ & _ & _ & Heq).
    destruct (PrimFloat.ltb (Cat.dist c) (Cat.dist (Matched.cat r))) eqn:Hlt; [|done].
    pose proof (ltb_eqb_r _ _ _ Hlt Heq) as Hbelow.
    rewrite (nanmin_lower_bound d ds (Cat.dist c)) in Hbelow; [done|].
    rewrite <- Hd. apply list_elem_of_fmap. by exists c.
  - intros r r' Hr Hr'. apply Hmem in Hr as (_ & _ & _ & Heq).
    apply Hmem in Hr' as (_ & _ & _ & Heq'). by apply (eqb_join _ _ (nanmin d ds)).
  - intros Hties. rewrite length_map. apply filter_at_most_one.
    intros i j a b Hij Hi Hj Ha Hb. unfold nearest_mask in Ha, Hb.
    apply andb_true_iff in Ha as [_ Ha]. apply andb_true_iff in Hb as [_ Hb].
    pose proof (eqb_join _ _ _ Ha Hb) as Hab.
    rewrite (Hties i j a b Hij Hi Hj) in Hab. done.
Qed.

End Retrieve.

Section RetrieveRun.
Context {archive : GaiaArchive}.

Lemma retrieve_turn_run (table : string) (radius : float)
    (gaia_table : list Matched.row) (objectid : Z) (coord : SkyCoord)
    (tr : list Event) :
  retrieve_turn table radius gaia_table (objectid, coord) tr
  = (Ok (gaia_table ++ map (Matched.Build_row objectid)
                           (nearest_rows (search_in_arcsec table coord radius))),
     tr ++ [EvConeSearch table coord radius]).
Proof.
  unfold retrieve_turn, cone_search, mbind, io_mbind, io_bind, io_emit, io_lift,
    mret, io_mret, io_ret.
  rewrite select_nearest_spec. reflexivity.
Qed.

Lemma retrieve_loop (table : string) (radius : float)
    (coords_list : list (Z * SkyCoord)) (gaia_table : list Matched.row)
    (tr : list Event) :
  io_for (retrieve_turn table radius) coords_list gaia_table tr
  = (Ok (gaia_table ++ matched_table table radius coords_list),
     tr ++ cone_searches table radius coords_list).
Proof.
  revert gaia_table tr.
  induction coords_list as [|[objectid coord] coords IH]; intros gaia_table tr.
  { simpl. unfold io_ret. by rewrite !app_nil_r. }
  cbn [io_for]. unfold mbind, io_mbind, io_bind.
  rewrite retrieve_turn_run, IH.
  unfold matched_table, cone_searches. simpl. by rewrite <- !app_assoc.
Qed.

(** The run of the retrieval: it never raises, its table is
    [matched_table], and it makes one cone search per coordinate. *)
Lemma retrieve_run (coords_list : list (Z * SkyCoord))
    (labels_list : list string) (table : string) (radius : float)
    (verbose : Z) (tr : list Event) :
  Gaia_retrieve_median_photometry coords_list labels_list table radius verbose tr
  = (Ok (matched_table table radius coords_list),
     tr ++ cone_searches table radius coords_list).
Proof. unfold Gaia_retrieve_median_photometry. by rewrite retrieve_loop. Qed.

(** What the retrieval keeps.  For every input coordinate,
    [Gaia_retrieve_median_photometry] appends to the result table exactly
    the rows of that coordinate's search answer whose distance is below one
    arcsecond and equal to the minimum of the returned distances.  None of
    the returned rows is closer than an appended row, and all appended rows
    of one coordinate are at the same distance.  There is at most one of
    them when no two returned rows are at the same distance; rows that tie
    at the minimum are all appended. *)
Lemma retrieve_keeps_the_nearest_rows (coords_list : list (Z * SkyCoord))
    (labels_list : list string) (table : string) (radius : float)
    (verbose : Z) (tr : list Event) :
  ∃ kept : list (list Matched.row),
    fst (Gaia_retrieve_median_photometry coords_list labels_list table radius
           verbose tr) = Ok (concat kept)
    ∧ Forall2 (λ '(objectid, coord) rows,
                 kept_for objectid (search_in_arcsec table coord radius) rows)
              coords_list kept.
Proof.
  exists (map (λ '(objectid, coord),
                 map (Matched.Build_row objectid)
                     (nearest_rows (search_in_arcsec table coord radius)))
              coords_list).
  rewrite retrieve_run. split.
  - simpl. unfold matched_table. f_equal.
    induction coords_list as [|[o c] l IH]; [done|]. simpl. by rewrite IH.
  - induction coords_list as [|[o c] l IH]; constructor; [|done].
    apply nearest_rows_kept.
Qed.

End RetrieveRun.

(** Claim C2, a failing input.  The claim is that at most one row, the
    nearest within the match radius, is added for an input coordinate.  The
    search at position 30 returns two sources at the same distance of 0.36
    arcsec, and both rows are added for the one input coordinate. *)
Theorem two_rows_kept_for_one_coordinate :
  match Gaia_retrieve_median_photometry (archive := Demo.archive)
          [(7%Z, Demo.c30)] ["x"] "gaiaedr3.gaia_source" 20 0 [] with
  | (Ok gaia_table, _) =>
      map (λ r, (Matched.input_object_name r, Cat.source_id (Matched.cat r),
                 Cat.dist (Matched.cat r)))
          gaia_table
      = [(7%Z, 301%Z, 0.36000000000000004%float);
         (7%Z, 302%Z, 0.36000000000000004%float)]
  | (Raise _, _) => False
  end.
Proof. vm_compute. reflexivity. Qed.

(** ** [Gaia_mk_lightcurves] *)

Section Lightcurves.
Context {numpy : NumPy} {astropy : AstropyTime}.

(** The dictionary of one source has the three bands and nothing else. *)
Lemma band_dict_lookup (tab : list Epoch.row) (band : string) :
  band_tables tab !! band
  = if bool_decide (band ∈ bands) then Some (band_table tab band) else None.
Proof.
  unfold band_tables, bands. simpl.
  destruct (decide (band = "RP")) as [->|Hrp]; [by rewrite lookup_insert_eq|].
  rewrite lookup_insert_ne by done.
  destruct (decide (band = "BP")) as [->|Hbp]; [by rewrite lookup_insert_eq|].
  rewrite lookup_insert_ne by done.
  destruct (decide (band = "G")) as [->|Hg]; [by rewrite lookup_insert_eq|].
  rewrite lookup_insert_ne, lookup_empty by done.
  rewrite bool_decide_eq_false_2; [done|].
  rewrite !elem_of_cons, elem_of_nil. tauto.
Qed.

Lemma mk_lightcurves_loop (items : list (string * list Epoch.row))
    (output : gmap string (gmap string (list LC.row))) (key : string) :
  NoDup items.*1 →
  foldl (λ output '(key, tab), <[key := band_tables tab]> output)
        output items !! key
  = match list_to_map (M := gmap string (list Epoch.row)) items !! key with
    | Some tab => Some (band_tables tab)
    | None => output !! key
    end.
Proof.
  revert output. induction items as [|[k tab] items IH]; intros output Hnd.
  { simpl. by rewrite lookup_empty. }
  apply NoDup_cons in Hnd as [Hk Hnd]. simpl. rewrite IH by done.
  destruct (decide (k = key)) as [->|Hne].
  - rewrite (not_elem_of_list_to_map_1 _ key) by done.
    by rewrite !lookup_insert_eq.
  - by rewrite !lookup_insert_ne.
Qed.

(** [Gaia_mk_lightcurves] keeps the keys of [prod_tab] and stores under
    each the three band tables of that product. *)
Lemma mk_lightcurves_lookup (prod_tab : gmap string (list Epoch.row))
    (verbose : Z) (key : string) :
  Gaia_mk_lightcurves prod_tab verbose !! key
  = band_tables <$> prod_tab !! key.
Proof.
  unfold Gaia_mk_lightcurves.
  rewrite mk_lightcurves_loop by apply NoDup_fst_map_to_list.
  rewrite list_to_map_to_list, lookup_empty.
  by destruct (prod_tab !! key).
Qed.

(** Claim C9.  Every entry of every per-band light-curve table made by
    [Gaia_mk_lightcurves] is computed from a row of the source's epoch
    photometry whose band is the band of that table, one of G, BP and RP,
    and whose [rejected_by_photometry] flag is [False]. *)
Theorem light_curve_entries_are_accepted_epochs
    (prod_tab : gmap string (list Epoch.row)) (verbose : Z)
    (key band : string) (light_curves : gmap string (list LC.row))
    (table : list LC.row) (entry : LC.row) :
  Gaia_mk_lightcurves prod_tab verbose !! key = Some light_curves →
  light_curves !! band = Some table →
  entry ∈ table →
  band ∈ bands
  ∧ ∃ (product : list Epoch.row) (r : Epoch.row),
      prod_tab !! key = Some product
      ∧ r ∈ product
      ∧ Epoch.band r = band
      ∧ Epoch.rejected_by_photometry r = false
      ∧ LC.time_jd entry = (Epoch.time r + 2455197.5)%float
      ∧ LC.time_isot entry = jd_to_isot (Epoch.time r + 2455197.5)%float
      ∧ LC.mag entry = Epoch.mag r
      ∧ LC.magerr entry = (2.5 / np_log 10 * Epoch.flux_error r / Epoch.flux r)%float.
Proof.
  intros Hkey Hband Hentry. rewrite mk_lightcurves_lookup in Hkey.
  destruct (prod_tab !! key) as [product|] eqn:Hprod; [|done].
  cbn [fmap option_fmap option_map] in Hkey. injection Hkey as <-.
  rewrite band_dict_lookup in Hband. case_bool_decide as Hb; [|done].
  injection Hband as <-. split; [done|].
  unfold band_table in Hentry. rewrite take_rows_np_where in Hentry.
  apply list_elem_of_fmap in Hentry as (r & -> & Hr).
  apply list_elem_of_In, filter_In in Hr as [Hr Hmask].
  unfold band_mask in Hmask. apply andb_true_iff in Hmask as [Hbd Hrej].
  apply String.eqb_eq in Hbd. apply Bool.eqb_prop in Hrej.
  exists product, r. rewrite list_elem_of_In. by repeat split.
Qed.

(** Every dictionary made by [Gaia_mk_lightcurves] has the three bands. *)
Lemma mk_lightcurves_epoch_ok (prod_tab : gmap string (list Epoch.row))
    (verbose : Z) :
  epoch_ok (Gaia_mk_lightcurves prod_tab verbose).
Proof.
  intros key light_curves Hkey. rewrite mk_lightcurves_lookup in Hkey.
  destruct (prod_tab !! key) as [product|]; [|done].
  cbn [fmap option_fmap option_map] in Hkey. injection Hkey as <-.
  rewrite Forall_forall. intros band Hb.
  rewrite band_dict_lookup, bool_decide_eq_true_2 by done. by eexists.
Qed.

End Lightcurves.

Lemma light_curve_entries_are_accepted_epochs_witness :
  let entry := {| LC.time_jd := 2456997.5; LC.time_isot := "2014-12-07T00:00:00.000";
                  LC.mag := 15; LC.magerr := 0.01 |} in
  ∃ light_curves,
    Demo.gaia_epoch_phot !! "101" = Some light_curves
    ∧ light_curves !! "G" = Some [entry]
    ∧ "G" ∈ bands
    ∧ ∃ product r,
        Demo.prod_tab !! "101" = Some product ∧ r ∈ product
        ∧ Epoch.band r = "G" ∧ Epoch.rejected_by_photometry r = false
        ∧ LC.time_jd entry = (Epoch.time r + 2455197.5)%float
        ∧ LC.time_isot entry
          = jd_to_isot (AstropyTime := Demo.astropy) (Epoch.time r + 2455197.5)%float
        ∧ LC.mag entry = Epoch.mag r
        ∧ LC.magerr entry
          = (2.5 / np_log (NumPy := Demo.numpy) 10 * Epoch.flux_error r / Epoch.flux r)%float.
Proof.
  intros entry.
  assert (Demo.gaia_epoch_phot !! "101"
          = Some (band_tables (numpy := Demo.numpy) (astropy := Demo.astropy)
                    Demo.product_101)) as Hkey by (vm_compute; reflexivity).
  eexists. split; [exact Hkey|].
  assert (band_tables (numpy := Demo.numpy) (astropy := Demo.astropy)
            Demo.product_101 !! "G" = Some [entry])
    as Hband by (vm_compute; reflexivity).
  split; [exact Hband|].
  apply (light_curve_entries_are_accepted_epochs
           (numpy := Demo.numpy) (astropy := Demo.astropy)
           Demo.prod_tab 0 "101" "G" _ [entry] entry Hkey Hband).
  apply list_elem_of_singleton. reflexivity.
Defined.

(** ** The frames of [Gaia_mk_MultiIndex] *)

Lemma replicate_as_map {A B} (a : A) (xs : list B) :
  replicate (length xs) a = map (λ _, a) xs.
Proof. induction xs as [|x xs IH]; [done|]. simpl. by rewrite IH. Qed.

Lemma zip_with_map {A B C D} (g : B → C → D) (f1 : A → B) (f2 : A → C)
    (xs : list A) :
  zip_with g (map f1 xs) (map f2 xs) = map (λ x, g (f1 x) (f2 x)) xs.
Proof. induction xs as [|x xs IH]; [done|]. simpl. by rewrite IH. Qed.

Lemma zip_rows_map {A} (fo : A → Z) (fl fb : A → string) (ft ff fe : A → float)
    (xs : list A) :
  zip_rows (map fo xs) (map fl xs) (map fb xs) (map ft xs) (map ff xs) (map fe xs)
  = map (λ x, {| DF.objectid := fo x; DF.label := fl x; DF.band := fb x;
                 DF.time := ft x; DF.flux := ff x; DF.err := fe x |}) xs.
Proof. induction xs as [|x xs IH]; [done|]. simpl. by rewrite IH. Qed.

Lemma broadcast_array_map {A B} (f : A → B) (xs : list A) :
  broadcast (length xs) (Array (map f xs)) = Ok (map f xs).
Proof. simpl. by rewrite length_map, Nat.eqb_refl. Qed.

Lemma broadcast_scalar {A B} (a : A) (xs : list B) :
  broadcast (length xs) (Scalar a) = Ok (map (λ _, a) xs).
Proof. simpl. by rewrite replicate_as_map. Qed.

Section Frames.
Context {numpy : NumPy} {astropy : AstropyTime}.

(** The frame of the three flux columns over the rows [xs], whatever the
    time column is made of. *)
Lemma frame_of_rows {A} (objectid : Z) (lab band : string) (xs : list A)
    (ft fm fe : A → float) (time : column float) :
  broadcast (length xs) time = Ok (map ft xs) →
  (df ← pd_DataFrame (Array (map mag_to_flux (map fm xs)))
         (Array (zip_with magerr_to_fluxerr (map fe xs)
                          (map mag_to_flux (map fm xs))))
         time
         (Array (replicate (length (map fm xs)) objectid)) (Scalar lab)
         (Scalar ("Gaia " +:+ lower band));
   set_index ["objectid"; "label"; "band"; "time"] df)
  = Ok (table_of (map (λ x, flux_row objectid lab band (ft x) (fm x) (fe x)) xs)).
Proof.
  intros Htime. unfold pd_DataFrame.
  rewrite !map_map, zip_with_map, !length_map, replicate_as_map.
  rewrite !broadcast_array_map, Htime, !broadcast_scalar.
  cbn [mbind result_mbind result_bind mret result_mret].
  rewrite zip_rows_map. reflexivity.
Qed.

Lemma epoch_frame_spec (objectid : Z) (lab band : string) (tab : list LC.row) :
  epoch_frame objectid lab band tab
  = Ok (table_of (map (epoch_row objectid lab band) tab)).
Proof.
  unfold epoch_frame. cbv zeta.
  rewrite (frame_of_rows objectid lab band tab
             (λ e, isot_to_mjd (LC.time_isot e)) LC.mag LC.magerr); [done|].
  rewrite map_map. apply broadcast_array_map.
Qed.

Lemma phot_column_mean (band : string) :
  band ∈ bands →
  phot_column ("phot_" +:+ lower band +:+ "_mean_mag")
  = Ok (λ p, fst (mean_photometry band p))
  ∧ phot_column ("phot_" +:+ lower band +:+ "_mean_mag_error")
    = Ok (λ p, snd (mean_photometry band p)).
Proof.
  unfold bands. rewrite !elem_of_cons, elem_of_nil.
  intros [->|[->|[->|[]]]]; split; reflexivity.
Qed.

Lemma mean_frame_spec (objectid : Z) (lab band : string)
    (gaia_phot : list Phot.row) (sel : list nat) :
  band ∈ bands →
  mean_frame objectid lab band gaia_phot sel
  = Ok (table_of (map (mean_row objectid lab band) (take_rows gaia_phot sel))).
Proof.
  intros Hband. unfold mean_frame. cbv zeta.
  destruct (phot_column_mean band Hband) as [-> ->].
  cbn [mbind result_mbind result_bind].
  rewrite (frame_of_rows objectid lab band (take_rows gaia_phot sel)
             (λ _, isot_to_mjd fixed_epoch)
             (λ p, fst (mean_photometry band p))
             (λ p, snd (mean_photometry band p))); [done|].
  apply broadcast_scalar.
Qed.

Lemma add_to_table_shaped (this_df_lc : option DataFrame) (rows : list DF.row) :
  well_shaped this_df_lc →
  add_to_table this_df_lc (table_of rows)
  = Some (table_of (rows_of this_df_lc ++ rows)).
Proof.
  destruct this_df_lc as [df|]; simpl; [|done].
  intros ->. reflexivity.
Qed.

End Frames.

(** ** One turn of the loop of [Gaia_mk_MultiIndex] *)

Lemma np_where_from_lookup {A} (mask : A → bool) (l : list A) (k i : nat) :
  i ∈ np_where_from k mask l →
  k ≤ i ∧ ∃ x, l !! (i - k) = Some x ∧ mask x = true.
Proof.
  revert k. induction l as [|y l IH]; intros k Hi; [by apply elem_of_nil in Hi|].
  simpl in Hi.
  assert (i ∈ np_where_from (S k) mask l →
          k ≤ i ∧ ∃ x, (y :: l) !! (i - k) = Some x ∧ mask x = true) as Hrest.
  { intros Hin. apply IH in Hin as (Hle & x & Hx & Hm). split; [lia|].
    exists x. split; [|done].
    replace (i - k) with (S (i - S k)) by lia. done. }
  destruct (mask y) eqn:Hy; [|by apply Hrest].
  apply elem_of_cons in Hi as [->|Hi]; [|by apply Hrest].
  split; [lia|]. exists y. by rewrite Nat.sub_diag.
Qed.

(** A position given by [np.where] is a row of the table. *)
Lemma np_where_lookup {A} (mask : A → bool) (l : list A) (i : nat) :
  i ∈ np_where mask l → ∃ x, l !! i = Some x ∧ mask x = true.
Proof.
  intros Hi. apply np_where_from_lookup in Hi as (_ & x & Hx & Hm).
  rewrite Nat.sub_0_r in Hx. eauto.
Qed.

Lemma py_index_nat {A} (l : list A) (i : nat) :
  py_index l (Z.of_nat i)
  = match l !! i with
    | Some a => Ok a
    | None => Raise IndexError
    end.
Proof.
  unfold py_index. cbv zeta.
  destruct (Z.ltb_spec (Z.of_nat i) 0) as [?|_]; [lia|].
  destruct (Z.ltb_spec (Z.of_nat i) 0) as [?|_]; [lia|].
  by rewrite Nat2Z.id.
Qed.

Ltac run_result :=
  unfold mbind, result_mbind, mret, result_mret; cbn [result_bind].

Ltac run_result_in H :=
  unfold mbind, result_mbind, mret, result_mret in H; cbn [result_bind] in H.

Section Turn.
Context {numpy : NumPy} {astropy : AstropyTime}.
Context (labels_list : list string) (gaia_phot : list Phot.row)
  (gaia_epoch_phot : gmap string (gmap string (list LC.row))).

Lemma first_match_lookup (objectid : Z) (i : nat) :
  head (matches gaia_phot objectid) = Some i →
  ∃ p, gaia_phot !! i = Some p ∧ Phot.input_object_name p = objectid.
Proof.
  intros Hhead.
  assert (i ∈ matches gaia_phot objectid) as Hi.
  { destruct (matches gaia_phot objectid); [done|].
    injection Hhead as ->. apply elem_of_cons. by left. }
  apply np_where_lookup in Hi as (p & Hp & Hm).
  exists p. split; [done|]. apply Z.eqb_eq in Hm. done.
Qed.

(** The turn for an object without a match changes nothing. *)
Lemma turn_without_match (this_df_lc : option DataFrame) (objectid : Z)
    (lab : string) :
  py_index labels_list objectid = Ok lab →
  matches gaia_phot objectid = [] →
  mk_MultiIndex_object labels_list gaia_phot gaia_epoch_phot this_df_lc objectid
  = Ok this_df_lc.
Proof.
  intros Hlab Hsel. unfold mk_MultiIndex_object.
  fold (matches gaia_phot objectid). rewrite Hlab, Hsel. reflexivity.
Qed.

(** The turn for a matched object, when the dictionary of its source (if
    any) has the three bands. *)
Lemma turn_with_match (this_df_lc : option DataFrame) (objectid : Z)
    (lab : string) (i : nat) (p : Phot.row) :
  well_shaped this_df_lc →
  py_index labels_list objectid = Ok lab →
  head (matches gaia_phot objectid) = Some i →
  gaia_phot !! i = Some p →
  (∀ light_curves,
     gaia_epoch_phot !! str (Phot.source_id p) = Some light_curves →
     Forall (λ band, is_Some (light_curves !! band)) bands) →
  mk_MultiIndex_object labels_list gaia_phot gaia_epoch_phot this_df_lc objectid
  = Ok (Some (table_of (rows_of this_df_lc
                        ++ object_rows labels_list gaia_phot gaia_epoch_phot
                                       objectid))).
Proof.
  intros Hshape Hlab Hhead Hp Hbands.
  unfold mk_MultiIndex_object, object_rows.
  fold (matches gaia_phot objectid). rewrite Hlab, Hhead, Hp.
  destruct (matches gaia_phot objectid) as [|i' sel] eqn:Hsel; [done|].
  injection Hhead as ->.
  cbn [length Nat.ltb Nat.leb]. run_result.
  change (py_index (i :: sel) 0) with (Ok (A := nat) i).
  cbn [result_bind]. rewrite py_index_nat.
  change (map Phot.source_id gaia_phot) with (Phot.source_id <$> gaia_phot).
  rewrite list_lookup_fmap, Hp. cbn [fmap option_fmap option_map result_bind].
  assert ("G" ∈ bands ∧ "BP" ∈ bands ∧ "RP" ∈ bands) as (HG & HBP & HRP).
  { unfold bands. rewrite !elem_of_cons. tauto. }
  destruct (gaia_epoch_phot !! str (Phot.source_id p)) as [light_curves|] eqn:Hkey.
  - specialize (Hbands light_curves eq_refl). rewrite Forall_forall in Hbands.
    destruct (Hbands "G" HG) as [tg Hg], (Hbands "BP" HBP) as [tb Hb],
             (Hbands "RP" HRP) as [tr Hr].
    cbn [for_each]. unfold dict_get. rewrite Hg, Hb, Hr.
    run_result.
    rewrite !epoch_frame_spec. cbn [result_bind].
    rewrite (add_to_table_shaped this_df_lc) by done.
    rewrite !add_to_table_shaped by reflexivity.
    unfold bands. cbn [flat_map rows_of df_rows table_of].
    rewrite Hg, Hb, Hr. cbn [default from_option].
    by rewrite app_nil_r, <- !app_assoc.
  - cbn [for_each]. run_result.
    rewrite !mean_frame_spec by done. cbn [result_bind].
    rewrite (add_to_table_shaped this_df_lc) by done.
    rewrite !add_to_table_shaped by reflexivity.
    unfold bands. cbn [flat_map rows_of df_rows table_of].
    by rewrite app_nil_r, <- !app_assoc.
Qed.

(** A turn that returns found every band it looked up. *)
Lemma turn_returns_bands (this_df_lc this_df_lc' : option DataFrame)
    (objectid : Z) (i : nat) (p : Phot.row)
    (light_curves : gmap string (list LC.row)) :
  mk_MultiIndex_object labels_list gaia_phot gaia_epoch_phot this_df_lc objectid
  = Ok this_df_lc' →
  head (matches gaia_phot objectid) = Some i →
  gaia_phot !! i = Some p →
  gaia_epoch_phot !! str (Phot.source_id p) = Some light_curves →
  Forall (λ band, is_Some (light_curves !! band)) bands.
Proof.
  intros Hrun Hhead Hp Hkey. unfold mk_MultiIndex_object in Hrun.
  fold (matches gaia_phot objectid) in Hrun.
  destruct (py_index labels_list objectid) as [lab|]; [|done].
  destruct (matches gaia_phot objectid) as [|i' sel] eqn:Hsel; [done|].
  injection Hhead as ->.
  cbn [length Nat.ltb Nat.leb] in Hrun. run_result_in Hrun.
  change (py_index (i :: sel) 0) with (Ok (A := nat) i) in Hrun.
  cbn [result_bind] in Hrun. rewrite py_index_nat in Hrun.
  change (map Phot.source_id gaia_phot) with (Phot.source_id <$> gaia_phot) in Hrun.
  rewrite list_lookup_fmap, Hp in Hrun.
  cbn [fmap option_fmap option_map result_bind] in Hrun. rewrite Hkey in Hrun.
  cbn [for_each] in Hrun. unfold dict_get in Hrun.
  unfold bands. repeat constructor.
  - destruct (light_curves !! "G"); [by eexists|done].
  - destruct (light_curves !! "G"); [|done].
    run_result_in Hrun.
    rewrite epoch_frame_spec in Hrun. cbn [result_bind] in Hrun.
    destruct (light_curves !! "BP"); [by eexists|done].
  - destruct (light_curves !! "G"); [|done].
    run_result_in Hrun.
    rewrite epoch_frame_spec in Hrun. cbn [result_bind] in Hrun.
    destruct (light_curves !! "BP"); [|done].
    run_result_in Hrun.
    rewrite epoch_frame_spec in Hrun. cbn [result_bind] in Hrun.
    destruct (light_curves !! "RP"); [by eexists|done].
Qed.

End Turn.

(** ** The whole loop of [Gaia_mk_MultiIndex] *)

Section Loop.
Context {numpy : NumPy} {astropy : AstropyTime}.
Context (labels_list : list string) (gaia_phot : list Phot.row)
  (gaia_epoch_phot : gmap string (gmap string (list LC.row))).

Lemma object_rows_from (objectid : Z) (row : DF.row) :
  row ∈ object_rows labels_list gaia_phot gaia_epoch_phot objectid →
  row_from labels_list gaia_phot gaia_epoch_phot objectid row.
Proof.
  unfold object_rows, row_from. intros Hrow.
  destruct (py_index labels_list objectid) as [lab|]; [|by apply elem_of_nil in Hrow].
  destruct (head (matches gaia_phot objectid)) as [i|];
    [|by apply elem_of_nil in Hrow].
  destruct (gaia_phot !! i) as [p|] eqn:Hp; [|by apply elem_of_nil in Hrow].
  destruct (gaia_epoch_phot !! str (Phot.source_id p)) as [light_curves|] eqn:Hkey.
  - apply list_elem_of_In, in_flat_map in Hrow as (band & Hband & Hrow).
    apply list_elem_of_In, list_elem_of_fmap in Hrow as (e & -> & He).
    apply list_elem_of_In in Hband.
    destruct (light_curves !! band) as [tab|] eqn:Htab;
      [|by apply elem_of_nil in He].
    exists lab, i, p, band. do 4 (split; [done|]).
    left. by exists light_curves, tab, e.
  - apply list_elem_of_In, in_flat_map in Hrow as (band & Hband & Hrow).
    apply list_elem_of_In, list_elem_of_fmap in Hrow as (p' & -> & Hp').
    apply list_elem_of_In in Hband.
    exists lab, i, p, band. do 4 (split; [done|]).
    right. by exists p'.
Qed.

(** What a turn that returns has done: the table keeps its shape and its
    rows, and every new row is a row of this object. *)
Lemma turn_rows (this_df_lc this_df_lc' : option DataFrame) (objectid : Z) :
  well_shaped this_df_lc →
  mk_MultiIndex_object labels_list gaia_phot gaia_epoch_phot this_df_lc objectid
  = Ok this_df_lc' →
  well_shaped this_df_lc'
  ∧ ∃ new, rows_of this_df_lc' = rows_of this_df_lc ++ new
           ∧ Forall (row_from labels_list gaia_phot gaia_epoch_phot objectid) new.
Proof.
  intros Hshape Hrun.
  destruct (py_index labels_list objectid) as [lab|e] eqn:Hlab.
  2:{ unfold mk_MultiIndex_object in Hrun. rewrite Hlab in Hrun. done. }
  destruct (head (matches gaia_phot objectid)) as [i|] eqn:Hhead.
  - destruct (first_match_lookup gaia_phot objectid i Hhead) as (p & Hp & _).
    rewrite (turn_with_match labels_list gaia_phot gaia_epoch_phot this_df_lc
               objectid lab i p) in Hrun; try done.
    + injection Hrun as <-. split; [reflexivity|].
      eexists. split; [reflexivity|].
      rewrite Forall_forall. apply object_rows_from.
    + intros light_curves Hkey. by eapply turn_returns_bands.
  - assert (matches gaia_phot objectid = []) as Hsel
      by (by destruct (matches gaia_phot objectid)).
    rewrite (turn_without_match labels_list gaia_phot gaia_epoch_phot
               this_df_lc objectid lab) in Hrun by done.
    injection Hrun as <-. split; [done|].
    exists []. by rewrite app_nil_r.
Qed.

Lemma loop_rows (coords_list : list (Z * SkyCoord))
    (this_df_lc this_df_lc' : option DataFrame) :
  well_shaped this_df_lc →
  for_each (λ this_df_lc '(objectid, _),
              mk_MultiIndex_object labels_list gaia_phot gaia_epoch_phot
                this_df_lc objectid)
           coords_list this_df_lc = Ok this_df_lc' →
  well_shaped this_df_lc'
  ∧ ∃ new, rows_of this_df_lc' = rows_of this_df_lc ++ new
           ∧ Forall (λ row, ∃ objectid coord,
                       (objectid, coord) ∈ coords_list
                       ∧ row_from labels_list gaia_phot gaia_epoch_phot
                                  objectid row) new.
Proof.
  revert this_df_lc.
  induction coords_list as [|[objectid coord] coords IH];
    intros this_df_lc Hshape Hrun.
  { injection Hrun as <-. split; [done|]. exists []. by rewrite app_nil_r. }
  cbn [for_each] in Hrun.
  destruct (mk_MultiIndex_object labels_list gaia_phot gaia_epoch_phot
              this_df_lc objectid) as [mid|] eqn:Hturn; [|done].
  destruct (turn_rows _ _ _ Hshape Hturn) as (Hshape1 & new1 & Hrows1 & Hnew1).
  destruct (IH mid Hshape1 Hrun) as (Hshape2 & new2 & Hrows2 & Hnew2).
  split; [done|]. exists (new1 ++ new2). split.
  - by rewrite Hrows2, Hrows1, app_assoc.
  - apply Forall_app. split.
    + eapply Forall_impl; [exact Hnew1|]. intros row Hrow.
      exists objectid, coord. split; [|done]. apply elem_of_cons. by left.
    + eapply Forall_impl; [exact Hnew2|]. intros row (o & c & Hin & Hrow).
      exists o, c. split; [|done]. apply elem_of_cons. by right.
Qed.

Lemma unmatched_object_rows (objectid : Z) :
  matches gaia_phot objectid = [] →
  object_rows labels_list gaia_phot gaia_epoch_phot objectid = [].
Proof.
  intros Hsel. unfold object_rows. rewrite Hsel. simpl.
  by destruct (py_index labels_list objectid).
Qed.

Lemma no_match_no_rows (coords_list : list (Z * SkyCoord)) :
  some_match gaia_phot coords_list = false →
  flat_map (λ '(objectid, _),
              object_rows labels_list gaia_phot gaia_epoch_phot objectid)
           coords_list = [].
Proof.
  induction coords_list as [|[objectid coord] coords IH]; [done|].
  cbn [some_match existsb flat_map]. intros Hnone.
  apply orb_false_iff in Hnone as [Hthis Hrest].
  rewrite (IH Hrest), app_nil_r. apply unmatched_object_rows.
  by destruct (matches gaia_phot objectid).
Qed.

(** The loop on well-formed inputs: it returns, and it has added the rows
    of every object in turn. *)
Lemma loop_exact (coords_list : list (Z * SkyCoord))
    (this_df_lc : option DataFrame) :
  labels_ok labels_list coords_list = true →
  epoch_ok gaia_epoch_phot →
  well_shaped this_df_lc →
  for_each (λ this_df_lc '(objectid, _),
              mk_MultiIndex_object labels_list gaia_phot gaia_epoch_phot
                this_df_lc objectid)
           coords_list this_df_lc
  = Ok (if some_match gaia_phot coords_list
        then Some (table_of
                     (rows_of this_df_lc
                      ++ flat_map (λ '(objectid, _),
                                     object_rows labels_list gaia_phot
                                       gaia_epoch_phot objectid)
                                  coords_list))
        else this_df_lc).
Proof.
  intros Hlabels Hepoch. revert this_df_lc.
  induction coords_list as [|[objectid coord] coords IH]; intros this_df_lc Hshape.
  { reflexivity. }
  cbn [labels_ok forallb] in Hlabels. apply andb_true_iff in Hlabels as [Hlab Hlabels].
  destruct (py_index labels_list objectid) as [lab|] eqn:Hpy; [|done].
  cbn [for_each some_match existsb flat_map].
  destruct (head (matches gaia_phot objectid)) as [i|] eqn:Hhead.
  - destruct (first_match_lookup gaia_phot objectid i Hhead) as (p & Hp & _).
    rewrite (turn_with_match labels_list gaia_phot gaia_epoch_phot this_df_lc
               objectid lab i p); try done.
    2:{ intros light_curves Hkey. exact (Hepoch _ _ Hkey). }
    rewrite (IH Hlabels) by reflexivity.
    destruct (matches gaia_phot objectid) as [|? ?]; [done|].
    cbn [length Nat.ltb Nat.leb orb rows_of df_rows table_of].
    fold (some_match gaia_phot coords).
    destruct (some_match gaia_phot coords) eqn:Hsome.
    + by rewrite <- app_assoc.
    + by rewrite (no_match_no_rows coords Hsome), app_nil_r.
  - assert (matches gaia_phot objectid = []) as Hsel
      by (by destruct (matches gaia_phot objectid)).
    rewrite (turn_without_match labels_list gaia_phot gaia_epoch_phot
               this_df_lc objectid lab) by done.
    rewrite (IH Hlabels) by done. rewrite Hsel.
    cbn [length Nat.ltb Nat.leb orb]. fold (some_match gaia_phot coords).
    by rewrite (unmatched_object_rows objectid Hsel).
Qed.

(** [Gaia_mk_MultiIndex] on well-formed inputs: the table of the rows of
    all objects when some object is matched, and an unbound local name
    otherwise. *)
Lemma mk_MultiIndex_exact (coords_list : list (Z * SkyCoord)) (verbose : Z) :
  labels_ok labels_list coords_list = true →
  epoch_ok gaia_epoch_phot →
  Gaia_mk_MultiIndex coords_list labels_list gaia_phot gaia_epoch_phot verbose
  = if some_match gaia_phot coords_list
    then Ok (table_of (flat_map (λ '(objectid, _),
                                   object_rows labels_list gaia_phot
                                     gaia_epoch_phot objectid)
                                coords_list))
    else Raise UnboundLocalError.
Proof.
  intros Hlabels Hepoch. unfold Gaia_mk_MultiIndex.
  rewrite (loop_exact coords_list None) by done.
  run_result. by destruct (some_match gaia_phot coords_list).
Qed.

(** [Gaia_mk_MultiIndex] whenever it returns: a table of the expected
    shape, every row of which is a row of one of the objects. *)
Lemma mk_MultiIndex_rows (coords_list : list (Z * SkyCoord)) (verbose : Z)
    (df : DataFrame) :
  Gaia_mk_MultiIndex coords_list labels_list gaia_phot gaia_epoch_phot verbose
  = Ok df →
  df = table_of (df_rows df)
  ∧ Forall (λ row, ∃ objectid coord,
              (objectid, coord) ∈ coords_list
              ∧ row_from labels_list gaia_phot gaia_epoch_phot objectid row)
           (df_rows df).
Proof.
  unfold Gaia_mk_MultiIndex. intros Hrun.
  destruct (for_each _ coords_list None) as [[df'|]|] eqn:Hloop;
    run_result_in Hrun; try done.
  injection Hrun as ->.
  destruct (loop_rows coords_list None (Some df) I Hloop)
    as (Hshape & new & Hrows & Hnew).
  split; [exact Hshape|]. simpl in Hrows. by rewrite Hrows.
Qed.

End Loop.

(** ** The table made by [Gaia_mk_MultiIndex] *)

Section Table.
Context {numpy : NumPy} {astropy : AstropyTime}.
Context (coords_list : list (Z * SkyCoord)) (labels_list : list string)
  (gaia_phot : list Phot.row)
  (gaia_epoch_phot : gmap string (gmap string (list LC.row))) (verbose : Z).

(** Claim C1.  Whenever [Gaia_mk_MultiIndex] returns, the data frame it
    returns is indexed by the four levels objectid, label, band and time,
    and its data columns are exactly flux and err. *)
Theorem multiindex_table_schema (df : DataFrame) :
  Gaia_mk_MultiIndex coords_list labels_list gaia_phot gaia_epoch_phot verbose
  = Ok df →
  df_index_names df = ["objectid"; "label"; "band"; "time"]
  ∧ df_columns df = ["flux"; "err"].
Proof.
  intros Hrun. destruct (mk_MultiIndex_rows _ _ _ _ _ _ Hrun) as [-> _].
  split; reflexivity.
Qed.

Lemma row_from_objectid (objectid : Z) (row : DF.row) :
  row_from labels_list gaia_phot gaia_epoch_phot objectid row →
  DF.objectid row = objectid.
Proof.
  intros (lab & i & p & band & _ & _ & _ & _ & [Hrow|Hrow]).
  - by destruct Hrow as (? & ? & ? & _ & _ & _ & ->).
  - by destruct Hrow as (? & _ & _ & ->).
Qed.


(** Claim C10.  In the table returned by [Gaia_mk_MultiIndex], every row of
    an object whose matched source has no epoch photometry, in every band,
    carries the same time: the Modified Julian Date of the fixed timestamp
    2015-09-24T19:40:33.468. *)
Theorem mean_rows_carry_the_fixed_epoch (df : DataFrame) (row : DF.row) :
  Gaia_mk_MultiIndex coords_list labels_list gaia_phot gaia_epoch_phot verbose
  = Ok df →
  row ∈ df_rows df →
  uses_mean_photometry gaia_phot gaia_epoch_phot (DF.objectid row) →
  DF.time row = isot_to_mjd "2015-09-24T19:40:33.468".
Proof.
  intros Hrun Hrow Hmean.
  destruct (mk_MultiIndex_rows _ _ _ _ _ _ Hrun) as [_ Hall].
  rewrite Forall_forall in Hall.
  destruct (Hall row Hrow) as (objectid & coord & _ & Hfrom).
  rewrite (row_from_objectid _ _ Hfrom) in Hmean.
  destruct Hmean as (i' & p' & Hhead' & Hp' & Hnone).
  destruct Hfrom as (lab & i & p & band & _ & Hhead & Hp & _ & [Hfrom|Hfrom]).
  - destruct Hfrom as (light_curves & _ & _ & Hkey & _).
    rewrite Hhead in Hhead'. injection Hhead' as <-.
    rewrite Hp in Hp'. injection Hp' as <-. congruence.
  - by destruct Hfrom as (? & _ & _ & ->).
Qed.


Lemma turn_unmatched (this_df_lc : option DataFrame) (objectid : Z) :
  matches gaia_phot objectid = [] →
  mk_MultiIndex_object labels_list gaia_phot gaia_epoch_phot this_df_lc objectid
  = match py_index labels_list objectid with
    | Ok _ => Ok this_df_lc
    | Raise e => Raise e
    end.
Proof.
  intros Hsel. unfold mk_MultiIndex_object. fold (matches gaia_phot objectid).
  rewrite Hsel. by destruct (py_index labels_list objectid).
Qed.

Lemma loop_without_match (coords : list (Z * SkyCoord))
    (this_df_lc : option DataFrame) :
  some_match gaia_phot coords = false →
  for_each (λ this_df_lc '(objectid, _),
              mk_MultiIndex_object labels_list gaia_phot gaia_epoch_phot
                this_df_lc objectid)
           coords this_df_lc
  = if labels_ok labels_list coords then Ok this_df_lc
    else Raise IndexError.
Proof.
  induction coords as [|[objectid coord] coords IH]; [done|].
  cbn [some_match existsb for_each labels_ok forallb]. intros Hnone.
  apply orb_false_iff in Hnone as [Hthis Hrest].
  rewrite turn_unmatched by (by destruct (matches gaia_phot objectid)).
  unfold py_index. cbv zeta.
  destruct (_ <? 0)%Z; [done|].
  destruct (labels_list !! _); [|done]. by apply IH.
Qed.

End Table.

(** ** Inputs without a match *)

Section NoMatch.
Context {numpy : NumPy} {astropy : AstropyTime}.
Context (labels_list : list string) (gaia_phot : list Phot.row)
  (gaia_epoch_phot : gmap string (gmap string (list LC.row))) (verbose : Z).

(** Claim C8.  When no input coordinate has a match in the Gaia table,
    [Gaia_mk_MultiIndex] returns no table, not even an empty one; once the
    loop is through (every [labels_list[objectid]] succeeds), the [return]
    raises [UnboundLocalError], a [NameError], as [this_df_lc] was never
    bound. *)
Theorem no_match_raises_unbound_local (coords_list : list (Z * SkyCoord)) :
  some_match gaia_phot coords_list = false →
  (∀ df, Gaia_mk_MultiIndex coords_list labels_list gaia_phot gaia_epoch_phot
           verbose ≠ Ok df)
  ∧ (labels_ok labels_list coords_list = true →
     Gaia_mk_MultiIndex coords_list labels_list gaia_phot gaia_epoch_phot verbose
     = Raise UnboundLocalError).
Proof.
  intros Hnone. unfold Gaia_mk_MultiIndex.
  rewrite (loop_without_match labels_list gaia_phot gaia_epoch_phot
             coords_list None Hnone).
  destruct (labels_ok labels_list coords_list); split; try done.
Qed.

(** Coordinates without a match leave no trace in the result: dropping
    them from the input does not change what the function answers. *)
Lemma unmatched_coordinates_are_skipped (coords_list : list (Z * SkyCoord)) :
  labels_ok labels_list coords_list = true →
  Gaia_mk_MultiIndex coords_list labels_list gaia_phot gaia_epoch_phot verbose
  = Gaia_mk_MultiIndex
      (List.filter (λ '(objectid, _),
                      (0 <? length (matches gaia_phot objectid))%nat)
                   coords_list)
      labels_list gaia_phot gaia_epoch_phot verbose.
Proof.
  intros Hlabels. unfold Gaia_mk_MultiIndex. f_equal.
  generalize (@None DataFrame) as this_df_lc.
  induction coords_list as [|[objectid coord] coords IH]; intros this_df_lc; [done|].
  cbn [labels_ok forallb] in Hlabels.
  apply andb_true_iff in Hlabels as [Hlab Hlabels].
  cbn [List.filter for_each].
  destruct (matches gaia_phot objectid) as [|i sel] eqn:Hsel.
  - cbn [length Nat.ltb Nat.leb]. rewrite turn_unmatched by done.
    destruct (py_index labels_list objectid); [|done]. by apply IH.
  - cbn [length Nat.ltb Nat.leb for_each].
    destruct (mk_MultiIndex_object _ _ _ _ _); [|done]. by apply IH.
Qed.

End NoMatch.

(** Claim C5, a failing input.  With the single input coordinate [(0, c)],
    a label for it and an empty Gaia table, the coordinate has no match;
    [Gaia_mk_MultiIndex] does not return a table built from the remaining
    (no) objects but raises [UnboundLocalError]. *)
Theorem single_unmatched_coordinate_raises {numpy : NumPy}
    {astropy : AstropyTime} :
  Gaia_mk_MultiIndex [(0%Z, Demo.c70)] ["star"] [] ∅ 0 = Raise UnboundLocalError.
Proof. reflexivity. Qed.

(** The same through the whole pipeline: nothing is found at position 70,
    and the main function raises after its two requests. *)
Example lightcurve_of_unmatched_coordinate :
  Gaia_get_lightcurve (numpy := Demo.numpy) (astropy := Demo.astropy)
    (archive := Demo.archive) (container := Demo.container)
    [(0%Z, Demo.c70)] ["star"] 0 []
  = (Raise UnboundLocalError,
     [EvConeSearch "gaiaedr3.gaia_source" Demo.c70 20; EvLoadData []]).
Proof. vm_compute. reflexivity. Qed.

(** ** The statements above at work on the small world *)

Lemma multiindex_table_schema_witness :
  ∃ df,
    Gaia_mk_MultiIndex (numpy := Demo.numpy) (astropy := Demo.astropy)
      Demo.coords_list Demo.labels_list Demo.gaia_phot Demo.gaia_epoch_phot 0
    = Ok df
    ∧ df_index_names df = ["objectid"; "label"; "band"; "time"]
    ∧ df_columns df = ["flux"; "err"].
Proof.
  eexists.
  assert (Gaia_mk_MultiIndex (numpy := Demo.numpy) (astropy := Demo.astropy)
            Demo.coords_list Demo.labels_list Demo.gaia_phot
            Demo.gaia_epoch_phot 0 = Ok _) as Hrun by (vm_compute; reflexivity).
  split; [exact Hrun|].
  exact (multiindex_table_schema (numpy := Demo.numpy) (astropy := Demo.astropy)
           _ _ _ _ _ _ Hrun).
Defined.


Lemma mean_rows_carry_the_fixed_epoch_witness :
  ∃ df row,
    Gaia_mk_MultiIndex (numpy := Demo.numpy) (astropy := Demo.astropy)
      Demo.coords_list Demo.labels_list Demo.gaia_phot Demo.gaia_epoch_phot 0
    = Ok df
    ∧ row ∈ df_rows df
    ∧ DF.objectid row = 2%Z
    ∧ uses_mean_photometry Demo.gaia_phot Demo.gaia_epoch_phot (DF.objectid row)
    ∧ DF.time row
      = isot_to_mjd (AstropyTime := Demo.astropy) "2015-09-24T19:40:33.468".
Proof.
  eexists. eexists.
  assert (Gaia_mk_MultiIndex (numpy := Demo.numpy) (astropy := Demo.astropy)
            Demo.coords_list Demo.labels_list Demo.gaia_phot
            Demo.gaia_epoch_phot 0 = Ok _) as Hrun by (vm_compute; reflexivity).
  split; [exact Hrun|].
  match goal with
  | |- ?r ∈ ?l ∧ _ =>
      assert (r ∈ l) as Hrow
        by (cbn [df_rows]; do 3 apply list_elem_of_further;
            apply list_elem_of_here)
  end.
  split; [exact Hrow|]. split; [reflexivity|].
  assert (uses_mean_photometry Demo.gaia_phot Demo.gaia_epoch_phot 2) as Hmean.
  { exists 1%nat, Demo.phot_501. split; [|split]; vm_compute; reflexivity. }
  split; [exact Hmean|].
  exact (mean_rows_carry_the_fixed_epoch (numpy := Demo.numpy)
           (astropy := Demo.astropy) _ _ _ _ _ _ _ Hrun Hrow Hmean).
Defined.


Lemma no_match_raises_unbound_local_witness :
  some_match Demo.gaia_phot [(1%Z, Demo.c70)] = false
  ∧ labels_ok Demo.labels_list [(1%Z, Demo.c70)] = true
  ∧ (∀ df, Gaia_mk_MultiIndex (numpy := Demo.numpy) (astropy := Demo.astropy)
             [(1%Z, Demo.c70)] Demo.labels_list Demo.gaia_phot
             Demo.gaia_epoch_phot 0 ≠ Ok df)
  ∧ Gaia_mk_MultiIndex (numpy := Demo.numpy) (astropy := Demo.astropy)
      [(1%Z, Demo.c70)] Demo.labels_list Demo.gaia_phot Demo.gaia_epoch_phot 0
    = Raise UnboundLocalError.
Proof.
  assert (some_match Demo.gaia_phot [(1%Z, Demo.c70)] = false) as Hnone
      by (vm_compute; reflexivity).
  assert (labels_ok Demo.labels_list [(1%Z, Demo.c70)] = true) as Hlabels
      by reflexivity.
  split; [exact Hnone|]. split; [exact Hlabels|].
  destruct (no_match_raises_unbound_local (numpy := Demo.numpy)
              (astropy := Demo.astropy) Demo.labels_list Demo.gaia_phot
              Demo.gaia_epoch_phot 0 [(1%Z, Demo.c70)] Hnone) as [Hno Hraise].
  split; [exact Hno | exact (Hraise Hlabels)].
Defined.

(** ** External calls *)

Lemma appends_ret {A} (a : A) : appends (io_ret a).
Proof. intros tr. unfold io_ret. simpl. by rewrite app_nil_r. Qed.

Lemma appends_emit (e : Event) : appends (io_emit e).
Proof. intros tr. reflexivity. Qed.

Lemma appends_raise {A} (e : PyExc) : appends (io_raise (A := A) e).
Proof. intros tr. unfold io_raise. simpl. by rewrite app_nil_r. Qed.

Lemma appends_lift {A} (r : result A) : appends (io_lift r).
Proof. intros tr. unfold io_lift. simpl. by rewrite app_nil_r. Qed.

Lemma appends_bind {A B} (m : IO A) (f : A → IO B) :
  appends m → (∀ a, appends (f a)) → appends (m ≫= f).
Proof.
  intros Hm Hf tr. unfold mbind, io_mbind, io_bind.
  rewrite (Hm tr), (Hm []).
  destruct (fst (m [])) as [a|e]; simpl.
  - rewrite (Hf a (tr ++ snd (m []))), (Hf a (snd (m []))). simpl.
    by rewrite app_assoc.
  - reflexivity.
Qed.

Lemma appends_for {A S} (body : S → A → IO S) (xs : list A) (acc : S) :
  (∀ acc x, appends (body acc x)) → appends (io_for body xs acc).
Proof.
  intros Hbody. revert acc. induction xs as [|x xs IH]; intros acc.
  - apply appends_ret.
  - cbn [io_for]. apply appends_bind; [apply Hbody | apply IH].
Qed.

(** [try: body except: pass] never raises and keeps the calls [body] made
    before it stopped. *)
Lemma try_pass_run (body : IO unit) (tr : list Event) :
  appends body → io_try_pass body tr = (Ok tt, tr ++ snd (body [])).
Proof.
  intros Hbody. unfold io_try_pass. rewrite (Hbody tr).
  by destruct (fst (body [])).
Qed.

(** ** [Gaia_get_lightcurve] *)

Section Pipeline.
Context {numpy : NumPy} {astropy : AstropyTime} {archive : GaiaArchive}
  {container : MultiIndexDFObjectAPI}.

Lemma retrieve_epoch_run (ids : list Z) (verbose : Z) (tr : list Event) :
  Gaia_retrieve_EPOCH_PHOTOMETRY ids verbose tr
  = (fst (Gaia_retrieve_EPOCH_PHOTOMETRY ids verbose []),
     tr ++ [EvLoadData ids]).
Proof. reflexivity. Qed.

(** The run of the main function. *)
Lemma lightcurve_run (coords_list : list (Z * SkyCoord))
    (labels_list : list string) (verbose : Z) (tr : list Event) :
  let gaia_phot :=
    Gaia_extract_median_photometry
      (matched_table "gaiaedr3.gaia_source" 20 coords_list) in
  let ids := map Phot.source_id gaia_phot in
  Gaia_get_lightcurve coords_list labels_list verbose tr
  = (prod_tab ← fst (Gaia_retrieve_EPOCH_PHOTOMETRY ids verbose []);
     df_lc_gaia ← Gaia_mk_MultiIndex coords_list labels_list gaia_phot
                    (Gaia_mk_lightcurves prod_tab verbose) verbose;
     mret (midf_append midf_new df_lc_gaia),
     tr ++ cone_searches "gaiaedr3.gaia_source" 20 coords_list
        ++ [EvLoadData ids]).
Proof.
  intros gaia_phot ids. unfold Gaia_get_lightcurve.
  unfold mbind at 1, io_mbind, io_bind at 1. rewrite retrieve_run.
  fold gaia_phot. fold ids.
  unfold mbind at 1, io_bind at 1. rewrite retrieve_epoch_run.
  rewrite <- app_assoc.
  destruct (fst (Gaia_retrieve_EPOCH_PHOTOMETRY ids verbose [])) as [prod_tab|e];
    [|reflexivity].
  unfold mbind, io_bind, io_lift, mret, io_mret, io_ret, result_mbind,
    result_mret. cbn [result_bind].
  by destruct (Gaia_mk_MultiIndex _ _ _ _ _).
Qed.


End Pipeline.


(** ** [Gaia_plot_lightcurves] *)

Section Plot.
Context {astropy : AstropyTime} {matplotlib : Matplotlib}
  {container : MultiIndexDFObjectAPI}.

Lemma plot_errorbar_appends (axis : nat) (x y yerr : list float) (lab : string) :
  appends (plot_errorbar axis x y yerr lab).
Proof.
  unfold plot_errorbar.
  destruct (errorbar axis x y yerr lab); [apply appends_raise | apply appends_emit].
Qed.

Lemma plot_object_appends (df : DataFrame) (dd : Z) : appends (plot_object df dd).
Proof.
  unfold plot_object. apply appends_for. intros [] [bb band].
  apply appends_bind; [apply appends_lift|].
  intros this_tab. apply plot_errorbar_appends.
Qed.

(** The loop over the objects: each object is tried, whatever happened to
    the ones before it. *)
Lemma plot_objects_run (df : DataFrame) (objects : list Z) (tr : list Event) :
  io_for (λ _ dd, io_try_pass (plot_object df dd)) objects tt tr
  = (Ok tt, tr ++ flat_map (λ dd, snd (plot_object df dd [])) objects).
Proof.
  revert tr. induction objects as [|dd objects IH]; intros tr.
  { simpl. unfold io_ret. by rewrite app_nil_r. }
  cbn [io_for flat_map]. unfold mbind, io_mbind, io_bind.
  rewrite try_pass_run by apply plot_object_appends.
  rewrite IH. by rewrite app_assoc.
Qed.

(** Claim C7.  [Gaia_plot_lightcurves] always completes and returns [True]:
    an exception raised while the bands of one object are plotted is caught,
    and the loop goes on with the remaining objects.  The plotting calls it
    makes are, object after object, the calls made for that object alone up
    to its first failure, followed by the decoration of the three axes and
    [plt.show()]. *)
Theorem plotting_failures_are_swallowed (df_lc : MultiIndexDFObject)
    (nbr_objects : Z) (tr : list Event) :
  let df := midf_data df_lc in
  let objects := py_slice_to (index_level0 df) nbr_objects in
  Gaia_plot_lightcurves df_lc nbr_objects tr
  = (Ok true,
     tr ++ [EvFigure]
        ++ flat_map (λ dd, snd (plot_object df dd [])) objects
        ++ [EvDecorate 0; EvDecorate 1; EvDecorate 2]
        ++ [EvShow]).
Proof.
  intros df objects. unfold Gaia_plot_lightcurves.
  fold df. fold objects.
  unfold mbind at 1, io_mbind, io_bind at 1, io_emit at 1.
  unfold mbind at 1, io_bind at 1. rewrite plot_objects_run.
  unfold mbind, io_bind, io_emit, mret, io_mret, io_ret. simpl.
  by rewrite <- !app_assoc.
Qed.

End Plot.

(** On the small world [errorbar] fails on the second axis: for each of the
    two objects the first band is drawn, the failure on the second band is
    swallowed, the third band is not tried, and the function returns. *)
Example plot_with_failing_axis :
  ∃ df,
    Gaia_mk_MultiIndex (numpy := Demo.numpy) (astropy := Demo.astropy)
      Demo.coords_list Demo.labels_list Demo.gaia_phot Demo.gaia_epoch_phot 0
    = Ok df
    ∧ fst (plot_object (astropy := Demo.astropy) (matplotlib := Demo.matplotlib)
             df 0 []) = Raise (ExternalError "errorbar")
    ∧ Gaia_plot_lightcurves (astropy := Demo.astropy)
        (matplotlib := Demo.matplotlib) (container := Demo.container) [df] 5 []
      = (Ok true,
         [EvFigure; EvErrorbar 0 "0"; EvErrorbar 0 "2";
          EvDecorate 0; EvDecorate 1; EvDecorate 2; EvShow]).
Proof. eexists. split; [vm_compute; reflexivity|]. split; vm_compute; reflexivity. Qed.

(** * Further properties *)

(** ** Which coordinates get a row *)

Lemma SFltb_below x m c :
  SFeqb x x = true → SFeqb m m = true →
  SFltb x m = false → SFltb x c = true → SFltb m c = true.
Proof.
  unfold SFltb, SFeqb, SFcompare.
  destruct x as [[]|[]| |[] mx ex], m as [[]|[]| |[] mm em],
           c as [[]|[]| |[] mc ec];
    try discriminate; try reflexivity;
    rewrite ?Pos.compare_cont_spec; simpl; intros _ _ Hxm Hxc; sf_cases.
Qed.

Lemma ltb_below (x m c : float) :
  is_nan x = false → is_nan m = false →
  PrimFloat.ltb x m = false → PrimFloat.ltb x c = true →
  PrimFloat.ltb m c = true.
Proof.
  unfold is_nan. rewrite !negb_false_iff, !ltb_spec, !FloatAxioms.eqb_spec.
  apply SFltb_below.
Qed.

Lemma fmin_is_argument (a b : float) : fmin a b = a ∨ fmin a b = b.
Proof.
  unfold fmin. destruct (is_nan a); [by right|].
  destruct (is_nan b); [by left|]. destruct (PrimFloat.ltb b a); auto.
Qed.

Lemma fmin_nan (a b : float) :
  is_nan (fmin a b) = true → is_nan a = true ∧ is_nan b = true.
Proof.
  unfold fmin. destruct (is_nan a) eqn:Ha; [done|].
  destruct (is_nan b) eqn:Hb; [congruence|].
  destruct (PrimFloat.ltb b a); congruence.
Qed.

(** [np.nanmin] answers one of the numbers of the array, and NaN only when
    they all are. *)
Lemma nanmin_attained (d : float) (ds : list float) :
  nanmin d ds ∈ d :: ds
  ∧ (is_nan (nanmin d ds) = true → Forall (λ x, is_nan x = true) (d :: ds)).
Proof.
  unfold nanmin. revert d. induction ds as [|b ds IH]; intros d.
  { simpl. split; [apply list_elem_of_here | by repeat constructor]. }
  simpl. destruct (IH (fmin d b)) as [Hin Hnan]. split.
  - apply elem_of_cons in Hin as [Heq|Hin].
    + rewrite Heq. destruct (fmin_is_argument d b) as [->| ->].
      * apply list_elem_of_here.
      * apply list_elem_of_further, list_elem_of_here.
    + by do 2 apply list_elem_of_further.
  - intros Hres. specialize (Hnan Hres). apply Forall_cons in Hnan as [Hdb Hds].
    apply fmin_nan in Hdb as [Hd Hb]. by repeat constructor.
Qed.

Section CloseSources.
Context {archive : GaiaArchive}.

(** Rows are kept exactly when some returned source is less than one
    arcsecond away: rows at NaN distance neither match nor hide one. *)
Lemma nearest_rows_nonempty (data : list Cat.row) :
  nearest_rows data ≠ [] ↔ has_close_source data = true.
Proof.
  unfold nearest_rows, has_close_source. split.
  - destruct (map Cat.dist data) as [|d ds]; [done|]. intros Hne.
    destruct (List.filter _ data) as [|r rest] eqn:Hf; [done|].
    assert (In r (List.filter (nearest_mask (nanmin d ds)) data)) as Hr
        by (rewrite Hf; by left).
    apply filter_In in Hr as [Hr Hm]. apply existsb_exists. exists r.
    split; [done|]. unfold nearest_mask in Hm. by apply andb_true_iff in Hm as [? _].
  - intros Hclose. apply existsb_exists in Hclose as (r & Hr & Hlt).
    destruct (map Cat.dist data) as [|d ds] eqn:Hd.
    { destruct data; [done | discriminate]. }
    destruct (nanmin_attained d ds) as [Hin Hnan]. rewrite <- Hd in Hin, Hnan.
    apply list_elem_of_fmap in Hin as (r' & Hr' & Hin').
    assert (is_nan (Cat.dist r) = false) as Hrn.
    { destruct (is_nan (Cat.dist r)) eqn:Hn; [|done].
      by rewrite (ltb_nan_l _ 1 Hn) in Hlt. }
    assert (is_nan (nanmin d ds) = false) as Hmn.
    { destruct (is_nan (nanmin d ds)) eqn:Hn; [|done].
      specialize (Hnan eq_refl). rewrite Forall_forall in Hnan.
      rewrite (Hnan (Cat.dist r)) in Hrn; [done|].
      apply list_elem_of_fmap. exists r. split; [done|]. by apply list_elem_of_In. }
    assert (PrimFloat.ltb (nanmin d ds) 1 = true) as Hm1.
    { apply (ltb_below (Cat.dist r)); try done.
      apply nanmin_lower_bound. rewrite <- Hd. apply list_elem_of_fmap.
      exists r. split; [done|]. by apply list_elem_of_In. }
    assert (In r' (List.filter (nearest_mask (nanmin d ds)) data)) as Hkept.
    { apply filter_In. split; [by apply list_elem_of_In|].
      unfold nearest_mask. rewrite <- Hr', Hm1. simpl.
      unfold is_nan in Hmn. by apply negb_false_iff in Hmn. }
    intros Hnil. by rewrite Hnil in Hkept.
Qed.

(** An object id gets at least one row of the Gaia table exactly when one
    of the searches made for it returned a source less than one arcsecond
    away, whatever the search radius. *)
Theorem object_has_a_row_iff_a_source_is_close
    (coords_list : list (Z * SkyCoord)) (labels_list : list string)
    (table : string) (radius : float) (verbose : Z) (tr : list Event) :
  ∃ gaia_table,
    fst (Gaia_retrieve_median_photometry coords_list labels_list table radius
           verbose tr) = Ok gaia_table
    ∧ ∀ objectid,
        (∃ r, r ∈ gaia_table ∧ Matched.input_object_name r = objectid)
        ↔ ∃ coord, (objectid, coord) ∈ coords_list
                   ∧ has_close_source (search_in_arcsec table coord radius) = true.
Proof.
  exists (matched_table table radius coords_list). rewrite retrieve_run.
  split; [done|]. intros objectid. unfold matched_table. split.
  - intros (r & Hr & Hname).
    apply list_elem_of_In, in_flat_map in Hr as ([o c] & Hin & Hr).
    apply in_map_iff in Hr as (row & <- & Hrow). simpl in Hname. subst o.
    exists c. split; [by apply list_elem_of_In|].
    apply nearest_rows_nonempty. intros Hnil. by rewrite Hnil in Hrow.
  - intros (coord & Hin & Hclose). apply nearest_rows_nonempty in Hclose.
    destruct (nearest_rows (search_in_arcsec table coord radius)) as [|row rest] eqn:Hrows;
      [done|].
    exists (Matched.Build_row objectid row). split; [|done].
    apply list_elem_of_In, in_flat_map. exists (objectid, coord).
    split; [by apply list_elem_of_In|]. rewrite Hrows. by left.
Qed.

End CloseSources.

(** ** [Gaia_retrieve_EPOCH_PHOTOMETRY] *)

Section EpochProducts.
Context {archive : GaiaArchive}.
Context (datalink : gmap string (list (list Epoch.row))).

(** The loop that fills [prod_tab] from the answer [datalink]. *)
Lemma products_loop_lookup (ids : list Z)
    (acc prod_tab : gmap string (list Epoch.row)) :
  for_each (λ prod_tab dd,
              match datalink !! product_file dd with
              | Some tables =>
                  t ← py_index tables 0;
                  mret (<[str dd := t]> prod_tab)
              | None => mret prod_tab
              end)
           ids acc = Ok prod_tab →
  (∀ dd, dd ∈ ids →
         prod_tab !! str dd
         = match datalink !! product_file dd with
           | Some tables => head tables
           | None => acc !! str dd
           end)
  ∧ (∀ key, (∀ dd, dd ∈ ids → key ≠ str dd) → prod_tab !! key = acc !! key).
Proof.
  revert acc. induction ids as [|dd0 ids IH]; intros acc Hrun.
  { injection Hrun as <-. split; [intros dd Hdd; by apply elem_of_nil in Hdd | done]. }
  cbn [for_each] in Hrun.
  destruct (datalink !! product_file dd0) as [tables|] eqn:Hfile.
  - destruct tables as [|t0 tables]; [done|].
    change (py_index (t0 :: tables) 0) with (Ok (A := list Epoch.row) t0) in Hrun.
    run_result_in Hrun. destruct (IH _ Hrun) as [Hids Hother]. split.
    + intros dd Hdd. destruct (decide (dd ∈ ids)) as [Hin|Hnin].
      * rewrite (Hids dd Hin). destruct (datalink !! product_file dd) eqn:Hdd'; [done|].
        rewrite lookup_insert_ne; [done|]. intros Heq. apply (inj str) in Heq.
        subst. congruence.
      * apply elem_of_cons in Hdd as [->|]; [|done].
        rewrite Hother, Hfile, lookup_insert_eq; [done|].
        intros dd Hdd Heq. apply (inj str) in Heq. by subst.
    + intros key Hkey. rewrite Hother.
      * rewrite lookup_insert_ne; [done|]. intros Heq.
        apply (Hkey dd0); [apply list_elem_of_here | done].
      * intros dd Hdd. apply Hkey. by apply list_elem_of_further.
  - run_result_in Hrun. destruct (IH _ Hrun) as [Hids Hother]. split.
    + intros dd Hdd. destruct (decide (dd ∈ ids)) as [Hin|Hnin]; [by apply Hids|].
      apply elem_of_cons in Hdd as [->|]; [|done].
      rewrite Hother, Hfile; [done|].
      intros dd Hdd Heq. apply (inj str) in Heq. by subst.
    + intros key Hkey. apply Hother. intros dd Hdd. apply Hkey.
      by apply list_elem_of_further.
Qed.

Lemma products_loop_raises (ids : list Z) (acc : gmap string (list Epoch.row)) :
  (∀ e, for_each (λ prod_tab dd,
              match datalink !! product_file dd with
              | Some tables =>
                  t ← py_index tables 0;
                  mret (<[str dd := t]> prod_tab)
              | None => mret prod_tab
              end)
           ids acc = Raise e → e = IndexError)
  ∧ (for_each (λ prod_tab dd,
              match datalink !! product_file dd with
              | Some tables =>
                  t ← py_index tables 0;
                  mret (<[str dd := t]> prod_tab)
              | None => mret prod_tab
              end)
           ids acc = Raise IndexError
     ↔ ∃ dd, dd ∈ ids ∧ datalink !! product_file dd = Some []).
Proof.
  revert acc. induction ids as [|dd0 ids IH]; intros acc.
  { split; [done|]. split; [done|]. intros (dd & Hdd & _). by apply elem_of_nil in Hdd. }
  cbn [for_each].
  destruct (datalink !! product_file dd0) as [[|t0 tables]|] eqn:Hfile.
  - split; [intros e [= <-]; done|]. split; [|done].
    intros _. exists dd0. split; [apply list_elem_of_here | done].
  - change (py_index (t0 :: tables) 0) with (Ok (A := list Epoch.row) t0).
    run_result. destruct (IH (<[str dd0 := t0]> acc)) as [He Hiff].
    split; [exact He|]. rewrite Hiff. split.
    + intros (dd & Hdd & Hempty). exists dd. split; [by apply list_elem_of_further | done].
    + intros (dd & Hdd & Hempty). exists dd. split; [|done].
      apply elem_of_cons in Hdd as [->|]; [congruence | done].
  - run_result. destruct (IH acc) as [He Hiff].
    split; [exact He|]. rewrite Hiff. split.
    + intros (dd & Hdd & Hempty). exists dd. split; [by apply list_elem_of_further | done].
    + intros (dd & Hdd & Hempty). exists dd. split; [|done].
      apply elem_of_cons in Hdd as [->|]; [congruence | done].
Qed.

End EpochProducts.

Section EpochRetrieval.
Context {archive : GaiaArchive}.

(** [Gaia_retrieve_EPOCH_PHOTOMETRY], when it returns: one download request
    is made; the dictionary holds, under [str(dd)] for each requested id,
    the first table of the file of that source, has no entry for an id
    whose file is not in the answer, and has no other key, whatever else
    the answer contains. *)
Theorem epoch_products_are_the_requested_files (ids : list Z) (verbose : Z)
    (tr : list Event) (prod_tab : gmap string (list Epoch.row)) :
  fst (Gaia_retrieve_EPOCH_PHOTOMETRY ids verbose tr) = Ok prod_tab →
  snd (Gaia_retrieve_EPOCH_PHOTOMETRY ids verbose tr) = tr ++ [EvLoadData ids]
  ∧ (∀ dd, dd ∈ ids →
           prod_tab !! str dd
           = match load_data ids !! product_file dd with
             | Some tables => head tables
             | None => None
             end)
  ∧ (∀ key, (∀ dd, dd ∈ ids → key ≠ str dd) → prod_tab !! key = None).
Proof.
  intros Hrun. split; [reflexivity|].
  destruct (products_loop_lookup (load_data ids) ids ∅ prod_tab Hrun)
    as [Hids Hother].
  split.
  - intros dd Hdd. rewrite (Hids dd Hdd), lookup_empty. done.
  - intros key Hkey. by rewrite (Hother key Hkey), lookup_empty.
Qed.

(** [Gaia_retrieve_EPOCH_PHOTOMETRY] raises exactly when the answer lists
    the file of a requested source with no table in it, and then it raises
    [IndexError]. *)
Theorem epoch_retrieval_fails_on_an_empty_product (ids : list Z) (verbose : Z)
    (tr : list Event) :
  (∀ e, fst (Gaia_retrieve_EPOCH_PHOTOMETRY ids verbose tr) = Raise e →
        e = IndexError)
  ∧ (fst (Gaia_retrieve_EPOCH_PHOTOMETRY ids verbose tr) = Raise IndexError
     ↔ ∃ dd, dd ∈ ids ∧ load_data ids !! product_file dd = Some []).
Proof. exact (products_loop_raises (load_data ids) ids ∅). Qed.

End EpochRetrieval.

Lemma epoch_products_are_the_requested_files_witness :
  fst (Gaia_retrieve_EPOCH_PHOTOMETRY (archive := Demo.archive) [101%Z; 501%Z] 0 [])
  = Ok Demo.prod_tab
  ∧ snd (Gaia_retrieve_EPOCH_PHOTOMETRY (archive := Demo.archive)
           [101%Z; 501%Z] 0 []) = [] ++ [EvLoadData [101%Z; 501%Z]]
  ∧ (∀ dd, dd ∈ [101%Z; 501%Z] →
           Demo.prod_tab !! str dd
           = match load_data (GaiaArchive := Demo.archive) [101%Z; 501%Z]
                   !! product_file dd with
             | Some tables => head tables
             | None => None
             end)
  ∧ (∀ key, (∀ dd, dd ∈ [101%Z; 501%Z] → key ≠ str dd) →
            Demo.prod_tab !! key = None).
Proof.
  assert (fst (Gaia_retrieve_EPOCH_PHOTOMETRY (archive := Demo.archive)
                 [101%Z; 501%Z] 0 []) = Ok Demo.prod_tab) as Hrun
      by (vm_compute; reflexivity).
  split; [exact Hrun|].
  exact (epoch_products_are_the_requested_files (archive := Demo.archive)
           [101%Z; 501%Z] 0 [] Demo.prod_tab Hrun).
Defined.

(** ** The dictionaries of [Gaia_mk_lightcurves] *)

Section LightcurveTables.
Context {numpy : NumPy} {astropy : AstropyTime}.

(** The light curve of a band lists, in the order of the product table, one
    entry for every epoch of that band that photometry did not reject, and
    nothing else. *)
Theorem light_curve_lists_all_accepted_epochs
    (prod_tab : gmap string (list Epoch.row)) (verbose : Z) (key band : string)
    (product : list Epoch.row) :
  prod_tab !! key = Some product →
  band ∈ bands →
  ∃ light_curves,
    Gaia_mk_lightcurves prod_tab verbose !! key = Some light_curves
    ∧ light_curves !! band
      = Some (map lc_entry (List.filter (band_mask band) product)).
Proof.
  intros Hkey Hband. exists (band_tables product). split.
  - by rewrite mk_lightcurves_lookup, Hkey.
  - rewrite band_dict_lookup, bool_decide_eq_true_2 by done.
    unfold band_table. by rewrite take_rows_np_where.
Qed.

(** [Gaia_mk_lightcurves] makes a dictionary for exactly the sources of
    [prod_tab], and each dictionary has exactly the bands G, BP and RP, a
    band without accepted epoch having an empty table. *)
Theorem light_curves_keep_the_sources_and_have_three_bands
    (prod_tab : gmap string (list Epoch.row)) (verbose : Z) :
  dom (Gaia_mk_lightcurves prod_tab verbose) = dom prod_tab
  ∧ ∀ key light_curves,
      Gaia_mk_lightcurves prod_tab verbose !! key = Some light_curves →
      dom light_curves = list_to_set bands.
Proof.
  split.
  - apply set_eq. intros key. rewrite !elem_of_dom, mk_lightcurves_lookup.
    destruct (prod_tab !! key); simpl; split; intros [? ?]; by eauto.
  - intros key light_curves. rewrite mk_lightcurves_lookup.
    destruct (prod_tab !! key) as [product|]; [|done].
    cbn [fmap option_fmap option_map]. intros [= <-].
    apply set_eq. intros band. rewrite elem_of_dom, elem_of_list_to_set.
    rewrite band_dict_lookup.
    case_bool_decide; split; intros Hx;
      first [done | by eexists | by destruct Hx].
Qed.

End LightcurveTables.

Lemma light_curve_lists_all_accepted_epochs_witness :
  Demo.prod_tab !! "101" = Some Demo.product_101
  ∧ "G" ∈ bands
  ∧ ∃ light_curves,
      Demo.gaia_epoch_phot !! "101" = Some light_curves
      ∧ light_curves !! "G"
        = Some (map (lc_entry (numpy := Demo.numpy) (astropy := Demo.astropy))
                    (List.filter (band_mask "G") Demo.product_101)).
Proof.
  assert (Demo.prod_tab !! "101" = Some Demo.product_101) as Hkey
      by (vm_compute; reflexivity).
  assert ("G" ∈ bands) as Hband by apply list_elem_of_here.
  split; [exact Hkey|]. split; [exact Hband|].
  exact (light_curve_lists_all_accepted_epochs (numpy := Demo.numpy)
           (astropy := Demo.astropy) Demo.prod_tab 0 "101" "G" Demo.product_101
           Hkey Hband).
Defined.

(** ** More on the table of [Gaia_mk_MultiIndex] *)

Lemma py_index_raises {A} (l : list A) (i : Z) (e : PyExc) :
  py_index l i = Raise e → e = IndexError.
Proof.
  unfold py_index. cbv zeta. destruct (_ <? 0)%Z; [congruence|].
  destruct (l !! _); congruence.
Qed.

Section TableRows.
Context {numpy : NumPy} {astropy : AstropyTime}.
Context (coords_list : list (Z * SkyCoord)) (labels_list : list string)
  (gaia_phot : list Phot.row)
  (gaia_epoch_phot : gmap string (gmap string (list LC.row))) (verbose : Z).


(** Every row of a returned table belongs to an input object that has a
    match: its object id is an id of [coords_list], its label is
    [labels_list[objectid]], and its band is one of Gaia g, Gaia bp and
    Gaia rp. *)
Theorem rows_belong_to_matched_input_objects (df : DataFrame) (row : DF.row) :
  Gaia_mk_MultiIndex coords_list labels_list gaia_phot gaia_epoch_phot verbose
  = Ok df →
  row ∈ df_rows df →
  (∃ coord, (DF.objectid row, coord) ∈ coords_list)
  ∧ py_index labels_list (DF.objectid row) = Ok (DF.label row)
  ∧ DF.band row ∈ band_names
  ∧ matches gaia_phot (DF.objectid row) ≠ [].
Proof.
  intros Hrun Hrow. destruct (mk_MultiIndex_rows _ _ _ _ _ _ Hrun) as [_ Hall].
  rewrite Forall_forall in Hall.
  destruct (Hall row Hrow) as (objectid & coord & Hin & Hfrom).
  rewrite (row_from_objectid _ _ _ _ _ Hfrom).
  destruct Hfrom as (lab & i & p & band & Hlab & Hhead & _ & Hband & Hrows).
  assert (DF.label row = lab ∧ DF.band row = "Gaia " +:+ lower band) as [-> ->].
  { destruct Hrows as [(? & ? & ? & _ & _ & _ & ->)|(? & _ & _ & ->)]; done. }
  split; [by exists coord|]. split; [done|]. split.
  - unfold bands in Hband. unfold band_names.
    rewrite !elem_of_cons, elem_of_nil in Hband.
    destruct Hband as [->|[->|[->|[]]]]; rewrite !elem_of_cons; simpl; tauto.
  - intros Hnil. by rewrite Hnil in Hhead.
Qed.

Lemma loop_missing_label (coords : list (Z * SkyCoord))
    (this_df_lc : option DataFrame) :
  labels_ok labels_list coords = false →
  epoch_ok gaia_epoch_phot →
  well_shaped this_df_lc →
  for_each (λ this_df_lc '(objectid, _),
              mk_MultiIndex_object labels_list gaia_phot gaia_epoch_phot
                this_df_lc objectid)
           coords this_df_lc = Raise IndexError.
Proof.
  intros Hlabels Hepoch. revert this_df_lc.
  induction coords as [|[objectid coord] coords IH]; intros this_df_lc Hshape;
    [done|].
  cbn [labels_ok forallb] in Hlabels. cbn [for_each].
  destruct (py_index labels_list objectid) as [lab|e] eqn:Hlab.
  - simpl in Hlabels.
    destruct (head (matches gaia_phot objectid)) as [i|] eqn:Hhead.
    + destruct (first_match_lookup gaia_phot objectid i Hhead) as (p & Hp & _).
      rewrite (turn_with_match labels_list gaia_phot gaia_epoch_phot this_df_lc
                 objectid lab i p); try done.
      * by apply IH.
      * intros light_curves Hkey. exact (Hepoch _ _ Hkey).
    + rewrite (turn_without_match labels_list gaia_phot gaia_epoch_phot
                 this_df_lc objectid lab); [by apply IH | done |].
      by destruct (matches gaia_phot objectid).
  - unfold mk_MultiIndex_object. rewrite Hlab.
    by rewrite (py_index_raises _ _ _ Hlab).
Qed.

(** When [labels_list] has no entry for the id of some input coordinate,
    matched or not, [Gaia_mk_MultiIndex] raises [IndexError] and returns no
    table. *)
Theorem missing_label_raises_index_error :
  labels_ok labels_list coords_list = false →
  epoch_ok gaia_epoch_phot →
  Gaia_mk_MultiIndex coords_list labels_list gaia_phot gaia_epoch_phot verbose
  = Raise IndexError.
Proof.
  intros Hlabels Hepoch. unfold Gaia_mk_MultiIndex.
  by rewrite (loop_missing_label coords_list None Hlabels Hepoch I).
Qed.

Lemma rows_of_object (objectid : Z) (coord : SkyCoord) (row : DF.row) :
  labels_ok labels_list coords_list = true →
  epoch_ok gaia_epoch_phot →
  (objectid, coord) ∈ coords_list →
  matches gaia_phot objectid ≠ [] →
  row ∈ object_rows labels_list gaia_phot gaia_epoch_phot objectid →
  ∃ df,
    Gaia_mk_MultiIndex coords_list labels_list gaia_phot gaia_epoch_phot verbose
    = Ok df
    ∧ row ∈ df_rows df.
Proof.
  intros Hlabels Hepoch Hin Hsel Hrow.
  assert (some_match gaia_phot coords_list = true) as Hsome.
  { unfold some_match. apply existsb_exists. exists (objectid, coord).
    split; [by apply list_elem_of_In|].
    by destruct (matches gaia_phot objectid). }
  eexists. rewrite mk_MultiIndex_exact, Hsome by done.
  split; [reflexivity|]. cbn [df_rows table_of].
  apply list_elem_of_In, in_flat_map. exists (objectid, coord).
  split; by apply list_elem_of_In.
Qed.

(** For an object whose first matched source has light curves, every entry
    of each of the three light curves becomes a row of the table. *)
Theorem epoch_entries_all_become_rows (objectid : Z) (coord : SkyCoord)
    (lab band : string) (i : nat) (p : Phot.row)
    (light_curves : gmap string (list LC.row)) (tab : list LC.row)
    (e : LC.row) :
  labels_ok labels_list coords_list = true →
  epoch_ok gaia_epoch_phot →
  (objectid, coord) ∈ coords_list →
  py_index labels_list objectid = Ok lab →
  head (matches gaia_phot objectid) = Some i →
  gaia_phot !! i = Some p →
  gaia_epoch_phot !! str (Phot.source_id p) = Some light_curves →
  band ∈ bands →
  light_curves !! band = Some tab →
  e ∈ tab →
  ∃ df,
    Gaia_mk_MultiIndex coords_list labels_list gaia_phot gaia_epoch_phot verbose
    = Ok df
    ∧ epoch_row objectid lab band e ∈ df_rows df.
Proof.
  intros Hlabels Hepoch Hin Hlab Hhead Hp Hkey Hband Htab He.
  apply (rows_of_object objectid coord); try done.
  { intros Hnil. by rewrite Hnil in Hhead. }
  unfold object_rows. rewrite Hlab, Hhead, Hp, Hkey.
  apply list_elem_of_In, in_flat_map. exists band.
  split; [by apply list_elem_of_In|]. rewrite Htab. simpl.
  apply in_map. by apply list_elem_of_In.
Qed.


(** The mean photometry is not used for a source that has light curves,
    even when they are all empty: such an object gets no row at all, and
    the function still returns a table. *)
Theorem empty_light_curves_give_no_rows (objectid : Z) (coord : SkyCoord)
    (i : nat) (p : Phot.row) (light_curves : gmap string (list LC.row)) :
  labels_ok labels_list coords_list = true →
  epoch_ok gaia_epoch_phot →
  (objectid, coord) ∈ coords_list →
  head (matches gaia_phot objectid) = Some i →
  gaia_phot !! i = Some p →
  gaia_epoch_phot !! str (Phot.source_id p) = Some light_curves →
  (∀ band, band ∈ bands → light_curves !! band = Some []) →
  ∃ df,
    Gaia_mk_MultiIndex coords_list labels_list gaia_phot gaia_epoch_phot verbose
    = Ok df
    ∧ ∀ row, row ∈ df_rows df → DF.objectid row ≠ objectid.
Proof.
  intros Hlabels Hepoch Hin Hhead Hp Hkey Hempty.
  assert (some_match gaia_phot coords_list = true) as Hsome.
  { unfold some_match. apply existsb_exists. exists (objectid, coord).
    split; [by apply list_elem_of_In|].
    by destruct (matches gaia_phot objectid). }
  eexists. rewrite mk_MultiIndex_exact, Hsome by done.
  split; [reflexivity|]. cbn [df_rows table_of]. intros row Hrow Hid.
  apply list_elem_of_In, in_flat_map in Hrow as ([o c] & _ & Hrow).
  apply list_elem_of_In in Hrow.
  pose proof (row_from_objectid _ _ _ _ _ (object_rows_from _ _ _ _ _ Hrow)) as Ho.
  rewrite Hid in Ho. subst o.
  unfold object_rows in Hrow. rewrite Hhead, Hp, Hkey in Hrow.
  destruct (py_index labels_list objectid); [|by apply elem_of_nil in Hrow].
  apply list_elem_of_In, in_flat_map in Hrow as (band & Hband & Hrow).
  rewrite (Hempty band) in Hrow by (by apply list_elem_of_In). done.
Qed.

End TableRows.


Lemma rows_belong_to_matched_input_objects_witness :
  ∃ df row,
    Gaia_mk_MultiIndex (numpy := Demo.numpy) (astropy := Demo.astropy)
      Demo.coords_list Demo.labels_list Demo.gaia_phot Demo.gaia_epoch_phot 0
    = Ok df
    ∧ row ∈ df_rows df
    ∧ (∃ coord, (DF.objectid row, coord) ∈ Demo.coords_list)
    ∧ py_index Demo.labels_list (DF.objectid row) = Ok (DF.label row)
    ∧ DF.band row ∈ band_names
    ∧ matches Demo.gaia_phot (DF.objectid row) ≠ [].
Proof.
  eexists. eexists.
  assert (Gaia_mk_MultiIndex (numpy := Demo.numpy) (astropy := Demo.astropy)
            Demo.coords_list Demo.labels_list Demo.gaia_phot
            Demo.gaia_epoch_phot 0 = Ok _) as Hrun by (vm_compute; reflexivity).
  split; [exact Hrun|].
  match goal with
  | |- ?r ∈ ?l ∧ _ =>
      assert (r ∈ l) as Hrow by (cbn [df_rows]; apply list_elem_of_here)
  end.
  split; [exact Hrow|].
  exact (rows_belong_to_matched_input_objects (numpy := Demo.numpy)
           (astropy := Demo.astropy) _ _ _ _ _ _ _ Hrun Hrow).
Defined.

Lemma missing_label_raises_index_error_witness :
  labels_ok ["AGN"] Demo.coords_list = false
  ∧ epoch_ok Demo.gaia_epoch_phot
  ∧ Gaia_mk_MultiIndex (numpy := Demo.numpy) (astropy := Demo.astropy)
      Demo.coords_list ["AGN"] Demo.gaia_phot Demo.gaia_epoch_phot 0
    = Raise IndexError.
Proof.
  assert (labels_ok ["AGN"] Demo.coords_list = false) as Hlabels by reflexivity.
  assert (epoch_ok Demo.gaia_epoch_phot) as Hepoch
      by apply mk_lightcurves_epoch_ok.
  split; [exact Hlabels|]. split; [exact Hepoch|].
  exact (missing_label_raises_index_error (numpy := Demo.numpy)
           (astropy := Demo.astropy) Demo.coords_list ["AGN"] Demo.gaia_phot
           Demo.gaia_epoch_phot 0 Hlabels Hepoch).
Defined.

Lemma epoch_entries_all_become_rows_witness :
  let light_curves :=
    band_tables (numpy := Demo.numpy) (astropy := Demo.astropy)
      Demo.product_101 in
  let tab :=
    map (lc_entry (numpy := Demo.numpy) (astropy := Demo.astropy))
        (List.filter (band_mask "G") Demo.product_101) in
  let e :=
    lc_entry (numpy := Demo.numpy) (astropy := Demo.astropy)
      (Demo.product_row 1800 "G" 15 false) in
  labels_ok Demo.labels_list Demo.coords_list = true
  ∧ epoch_ok Demo.gaia_epoch_phot
  ∧ (0%Z, Demo.c10) ∈ Demo.coords_list
  ∧ py_index Demo.labels_list 0 = Ok "AGN"
  ∧ head (matches Demo.gaia_phot 0) = Some 0%nat
  ∧ Demo.gaia_phot !! 0%nat = Some DemoEdge.phot_101
  ∧ Demo.gaia_epoch_phot !! str (Phot.source_id DemoEdge.phot_101)
    = Some light_curves
  ∧ "G" ∈ bands
  ∧ light_curves !! "G" = Some tab
  ∧ e ∈ tab
  ∧ ∃ df,
      Gaia_mk_MultiIndex (numpy := Demo.numpy) (astropy := Demo.astropy)
        Demo.coords_list Demo.labels_list Demo.gaia_phot Demo.gaia_epoch_phot 0
      = Ok df
      ∧ epoch_row (numpy := Demo.numpy) (astropy := Demo.astropy) 0 "AGN" "G" e
        ∈ df_rows df.
Proof.
  intros light_curves tab e.
  assert (labels_ok Demo.labels_list Demo.coords_list = true) as Hlabels
      by reflexivity.
  assert (epoch_ok Demo.gaia_epoch_phot) as Hepoch
      by apply mk_lightcurves_epoch_ok.
  assert ((0%Z, Demo.c10) ∈ Demo.coords_list) as Hin by apply list_elem_of_here.
  assert (py_index Demo.labels_list 0 = Ok "AGN") as Hlab by reflexivity.
  assert (head (matches Demo.gaia_phot 0) = Some 0%nat) as Hhead
      by (vm_compute; reflexivity).
  assert (Demo.gaia_phot !! 0%nat = Some DemoEdge.phot_101) as Hp
      by (vm_compute; reflexivity).
  assert (Demo.gaia_epoch_phot !! str (Phot.source_id DemoEdge.phot_101)
          = Some light_curves) as Hkey by (vm_compute; reflexivity).
  assert ("G" ∈ bands) as Hband by apply list_elem_of_here.
  assert (light_curves !! "G" = Some tab) as Htab by (vm_compute; reflexivity).
  assert (e ∈ tab) as He by (vm_compute; apply list_elem_of_here).
  do 10 (split; [done|]).
  exact (epoch_entries_all_become_rows (numpy := Demo.numpy)
           (astropy := Demo.astropy) Demo.coords_list Demo.labels_list
           Demo.gaia_phot Demo.gaia_epoch_phot 0 0 Demo.c10 "AGN" "G" 0
           DemoEdge.phot_101 light_curves tab e
           Hlabels Hepoch Hin Hlab Hhead Hp Hkey Hband Htab He).
Defined.


Lemma empty_light_curves_give_no_rows_witness :
  let light_curves :=
    band_tables (numpy := Demo.numpy) (astropy := Demo.astropy)
      [Demo.product_row 1800 "G" 19 true] in
  labels_ok Demo.labels_list Demo.coords_list = true
  ∧ epoch_ok DemoEdge.gaia_epoch_phot_rejected
  ∧ (2%Z, Demo.c50) ∈ Demo.coords_list
  ∧ head (matches Demo.gaia_phot 2) = Some 1%nat
  ∧ Demo.gaia_phot !! 1%nat = Some Demo.phot_501
  ∧ DemoEdge.gaia_epoch_phot_rejected !! str (Phot.source_id Demo.phot_501)
    = Some light_curves
  ∧ (∀ band, band ∈ bands → light_curves !! band = Some [])
  ∧ ∃ df,
      Gaia_mk_MultiIndex (numpy := Demo.numpy) (astropy := Demo.astropy)
        Demo.coords_list Demo.labels_list Demo.gaia_phot
        DemoEdge.gaia_epoch_phot_rejected 0 = Ok df
      ∧ ∀ row, row ∈ df_rows df → DF.objectid row ≠ 2%Z.
Proof.
  intros light_curves.
  assert (labels_ok Demo.labels_list Demo.coords_list = true) as Hlabels
      by reflexivity.
  assert (epoch_ok DemoEdge.gaia_epoch_phot_rejected) as Hepoch
      by apply mk_lightcurves_epoch_ok.
  assert ((2%Z, Demo.c50) ∈ Demo.coords_list) as Hin
      by (do 2 apply list_elem_of_further; apply list_elem_of_here).
  assert (head (matches Demo.gaia_phot 2) = Some 1%nat) as Hhead
      by (vm_compute; reflexivity).
  assert (Demo.gaia_phot !! 1%nat = Some Demo.phot_501) as Hp
      by (vm_compute; reflexivity).
  assert (DemoEdge.gaia_epoch_phot_rejected !! str (Phot.source_id Demo.phot_501)
          = Some light_curves) as Hkey by (vm_compute; reflexivity).
  assert (∀ band, band ∈ bands → light_curves !! band = Some []) as Hempty.
  { intros band Hband. unfold bands in Hband.
    rewrite !elem_of_cons, elem_of_nil in Hband.
    destruct Hband as [->|[->|[->|[]]]]; vm_compute; reflexivity. }
  do 7 (split; [done|]).
  exact (empty_light_curves_give_no_rows (numpy := Demo.numpy)
           (astropy := Demo.astropy) Demo.coords_list Demo.labels_list
           Demo.gaia_phot DemoEdge.gaia_epoch_phot_rejected 0 2 Demo.c50 1
           Demo.phot_501 light_curves Hlabels Hepoch Hin Hhead Hp Hkey Hempty).
Defined.

Lemma unmatched_coordinates_are_skipped_witness :
  labels_ok Demo.labels_list Demo.coords_list = true
  ∧ Gaia_mk_MultiIndex (numpy := Demo.numpy) (astropy := Demo.astropy)
      Demo.coords_list Demo.labels_list Demo.gaia_phot Demo.gaia_epoch_phot 0
    = Gaia_mk_MultiIndex (numpy := Demo.numpy) (astropy := Demo.astropy)
        (List.filter (λ '(objectid, _),
                        (0 <? length (matches Demo.gaia_phot objectid))%nat)
                     Demo.coords_list)
        Demo.labels_list Demo.gaia_phot Demo.gaia_epoch_phot 0.
Proof.
  assert (labels_ok Demo.labels_list Demo.coords_list = true) as Hlabels
      by reflexivity.
  split; [exact Hlabels|].
  exact (unmatched_coordinates_are_skipped (numpy := Demo.numpy)
           (astropy := Demo.astropy) Demo.labels_list Demo.gaia_phot
           Demo.gaia_epoch_phot 0 Demo.coords_list Hlabels).
Defined.

(** ** The whole pipeline *)

Section EndToEnd.
Context {numpy : NumPy} {astropy : AstropyTime} {archive : GaiaArchive}
  {container : MultiIndexDFObjectAPI}.





End EndToEnd.


(** ** The bands of one object in [Gaia_plot_lightcurves] *)

Section PlotBands.
Context {astropy : AstropyTime} {matplotlib : Matplotlib}.


End PlotBands.

(** ** A download without tables *)

Section EmptyProduct.
Context {numpy : NumPy} {astropy : AstropyTime} {archive : GaiaArchive}
  {container : MultiIndexDFObjectAPI}.

(** When the answer of the download lists the file of a requested source
    with no table in it, [Gaia_get_lightcurve] raises [IndexError] after its
    searches and its download request, and makes no table. *)
Theorem lightcurve_fails_on_an_empty_product
    (coords_list : list (Z * SkyCoord)) (labels_list : list string)
    (verbose : Z) (tr : list Event) (dd : Z) :
  let ids :=
    map Phot.source_id
        (Gaia_extract_median_photometry
           (matched_table "gaiaedr3.gaia_source" 20 coords_list)) in
  dd ∈ ids →
  load_data ids !! product_file dd = Some [] →
  Gaia_get_lightcurve coords_list labels_list verbose tr
  = (Raise IndexError,
     tr ++ cone_searches "gaiaedr3.gaia_source" 20 coords_list
        ++ [EvLoadData ids]).
Proof.
  intros ids Hdd Hempty. rewrite lightcurve_run. fold ids.
  assert (fst (Gaia_retrieve_EPOCH_PHOTOMETRY ids verbose []) = Raise IndexError)
    as ->; [|reflexivity].
  apply (products_loop_raises (load_data ids) ids ∅). by exists dd.
Qed.

End EmptyProduct.

Lemma lightcurve_fails_on_an_empty_product_witness :
  let ids :=
    map Phot.source_id
        (Gaia_extract_median_photometry (numpy := Demo.numpy)
           (matched_table (archive := DemoEdge.archive_without_table)
              "gaiaedr3.gaia_source" 20 Demo.coords_list)) in
  101%Z ∈ ids
  ∧ load_data (GaiaArchive := DemoEdge.archive_without_table) ids
      !! product_file 101 = Some []
  ∧ Gaia_get_lightcurve (numpy := Demo.numpy) (astropy := Demo.astropy)
      (archive := DemoEdge.archive_without_table) (container := Demo.container)
      Demo.coords_list Demo.labels_list 0 []
    = (Raise IndexError,
       [] ++ cone_searches "gaiaedr3.gaia_source" 20 Demo.coords_list
          ++ [EvLoadData ids]).
Proof.
  intros ids.
  assert (101%Z ∈ ids) as Hdd by (vm_compute; apply list_elem_of_here).
  assert (load_data (GaiaArchive := DemoEdge.archive_without_table) ids
            !! product_file 101 = Some []) as Hempty by (vm_compute; reflexivity).
  split; [exact Hdd|]. split; [exact Hempty|].
  exact (lightcurve_fails_on_an_empty_product (numpy := Demo.numpy)
           (astropy := Demo.astropy) (archive := DemoEdge.archive_without_table)
           (container := Demo.container) Demo.coords_list Demo.labels_list 0 []
           101 Hdd Hempty).
Defined.
